(** * Transparency-log verification of sigstore-go: [pkg/verify/tlog.go]

    A shallow embedding of [VerifyArtifactTransparencyLog] and the
    properties of its admission checks, its per-entry loop and its final
    threshold test.  The collaborators living in other packages
    ([tlog.ValidateEntry], [tlog.VerifySET], [tlog.VerifyInclusion],
    [signature.LoadVerifier], the Rekor client) are parameters of the
    development; the control flow around them is the one of the Go source. *)

From Stdlib Require Import ZArith Strings.Byte Strings.Ascii Strings.String.
From stdpp Require Import base gmap strings list pretty.

Local Open Scope Z_scope.

#[global] Instance byte_eq_dec : EqDecision byte := Byte.byte_eq_dec.

(** ** [encoding/hex] *)

Module hex.

Definition hextable : string := "0123456789abcdef".

(** [hextable[n]] for a nibble [n]. *)
Definition digit (n : N) : ascii :=
  default "0"%char (String.get (N.to_nat n) hextable).

(** [hex.EncodeToString]: two lower-case digits per source byte, high
    nibble first ([v >> 4], then [v & 0x0f]). *)
Fixpoint EncodeToString (src : string) : string :=
  match src with
  | EmptyString => EmptyString
  | String v rest =>
      String (digit (N.shiftr (N_of_ascii v) 4))
        (String (digit (N.land (N_of_ascii v) 15)) (EncodeToString rest))
  end.

End hex.

(** ** Data model *)

(** [root.TransparencyLog] and [root.TrustedMaterial]: the fields and the
    method this file reads. *)
Module root.

Record TransparencyLog := {
  BaseURL : string;
  PublicKey : list byte;
  SignatureHashFunc : N
}.

Record TrustedMaterial := {
  RekorLogs : gmap string TransparencyLog
}.

End root.

(** [tlog.Entry], through its accessors.  [LogKeyID] is a Go string,
    [LogIndex] an int64 (it is assigned to the int64 search parameter),
    [IntegratedTime] a time in Unix seconds, [Body] whatever else the
    entry carries for the collaborators to inspect. *)
Module tlog.

Record Entry := {
  LogKeyID : string;
  LogIndex : Z;
  IntegratedTime : Z;
  Signature : list byte;
  PublicKey : list byte;
  HasInclusionPromise : bool;
  HasInclusionProof : bool;
  Body : list byte
}.

End tlog.

Record Timestamp := { Time : Z; URI : string }.

(** The errors the function builds itself, and [Upstream] for those
    built elsewhere. *)
Inductive error :=
| ErrTooManyEntries (n : nat)
| ErrDuplicateEntries
| ErrMissingInclusion
| ErrNotFound (logIndex : Z)
| ErrSignatureMismatch
| ErrCertificateMismatch
| ErrIntegratedTime
| ErrNotEnough (verified threshold : Z)
| Upstream (msg : string).

Inductive result (A : Type) :=
| Ok (a : A)
| Err (e : error).
Arguments Ok {A} a.
Arguments Err {A} e.

Definition is_Err {A} (r : result A) : Prop :=
  match r with Err _ => True | Ok _ => False end.

(** [VerificationContent], [SignatureContent] and [SignedEntity] are Go
    interfaces: records of their methods. *)
Record VerificationContent := {
  CompareKey : list byte → root.TrustedMaterial → bool;
  ValidAtTime : Z → root.TrustedMaterial → bool
}.

Record SignatureContent := { Signature : list byte }.

Record SignedEntity := {
  TlogEntries : result (list tlog.Entry);
  GetSignatureContent : result SignatureContent;
  GetVerificationContent : result VerificationContent
}.

(** The collaborators from other packages.  A [None] is Go's nil error;
    what they return as an error is handed on as it is. *)
Record Collaborators := {
  Verifier : Type;
  Rekor : Type;
  LogEntryAnon : Type;
  ValidateEntry : tlog.Entry → option error;
  VerifySET : tlog.Entry → gmap string root.TransparencyLog → option error;
  VerifyInclusion : tlog.Entry → Verifier → option error;
  LoadVerifier : list byte → N → result Verifier;
  RekorClientGetter : string → result Rekor;
  (** [resp.Payload], in the order the [range] visits it *)
  GetLogEntryByIndex : Rekor → Z → result (list LogEntryAnon);
  VerifyLogEntry : LogEntryAnon → Verifier → option error
}.

Definition maxAllowedTlogEntries : nat := 32.

(** [bytes.Equal] *)
Definition bytes_Equal (a b : list byte) : bool := bool_decide (a = b).

(** The duplicate scan of lines 59-65: entry [i] against every later
    entry [j]. *)
Definition sameIdentity (a b : tlog.Entry) : bool :=
  bool_decide (tlog.LogKeyID a = tlog.LogKeyID b)
  && bool_decide (tlog.LogIndex a = tlog.LogIndex b).

Fixpoint hasDuplicates (entries : list tlog.Entry) : bool :=
  match entries with
  | [] => false
  | e :: rest => existsb (sameIdentity e) rest || hasDuplicates rest
  end.

(** How a statement of the loop body ends: it falls through, it
    [continue]s, or it returns an error from the function. *)
Inductive Flow (A : Type) :=
| Next (a : A)
| Continue
| Return (err : error).
Arguments Next {A} a.
Arguments Continue {A}.
Arguments Return {A} err.

Section Verify.

Variable X : Collaborators.

(** The verification steps taken on behalf of an entry, in the order
    they are made. *)
Inductive Work :=
| WValidateEntry (e : tlog.Entry)
| WLookup (hex64Key : string)
| WVerifySET (e : tlog.Entry)
| WLoadVerifier (l : root.TransparencyLog)
| WVerifyInclusion (e : tlog.Entry)
| WRekorClientGetter (url : string)
| WGetLogEntryByIndex (logIndex : Z)
| WVerifyLogEntry (v : LogEntryAnon X)
| WSignatureEqual (e : tlog.Entry)
| WCompareKey (e : tlog.Entry)
| WValidAtTime (e : tlog.Entry).

(** The loop's variables, and the work done so far. *)
Record St := mkSt {
  verifiedTimestamps : list Timestamp;
  logEntriesVerified : Z;
  work : list Work
}.

Definition M (A : Type) : Type := St → St * Flow A.

#[local] Instance M_ret : MRet M := λ A a s, (s, Next a).
#[local] Instance M_bind : MBind M := λ A B f m s,
  match m s with
  | (s', Next a) => f a s'
  | (s', Continue) => (s', Continue)
  | (s', Return err) => (s', Return err)
  end.

Definition continue {A} : M A := λ s, (s, Continue).
Definition fail {A} (err : error) : M A := λ s, (s, Return err).
Definition step (w : Work) : M unit := λ s,
  (mkSt (verifiedTimestamps s) (logEntriesVerified s) (work s ++ [w]), Next ()).
Definition appendTimestamp (t : Timestamp) : M unit := λ s,
  (mkSt (verifiedTimestamps s ++ [t]) (logEntriesVerified s) (work s), Next ()).
(** [logEntriesVerified++].  The count never exceeds the number of
    entries, at most 32, so Go's [int] does not wrap here. *)
Definition incrVerified : M unit := λ s,
  (mkSt (verifiedTimestamps s) (logEntriesVerified s + 1) (work s), Next ()).

(** [getVerifier], lines 186-193. *)
Definition getVerifier (publicKey : list byte) (hashFunc : N) : result (Verifier X) :=
  match LoadVerifier X publicKey hashFunc with
  | Err err => Err err
  | Ok verifier => Ok verifier
  end.

Variable trustedMaterial : root.TrustedMaterial.
Variable trustIntegratedTime online : bool.

(** The [range resp.Payload] loop of lines 147-153. *)
Fixpoint rangePayload (payload : list (LogEntryAnon X)) (verifier : Verifier X) : M unit :=
  match payload with
  | [] => mret ()
  | v :: rest =>
      step (WVerifyLogEntry v);;
      match VerifyLogEntry X v verifier with
      | Some err => fail err
      | None => rangePayload rest verifier
      end
  end.

(** Lines 97-121: the offline branch. *)
Definition verifyOffline (entry : tlog.Entry) (tlogVerifier : root.TransparencyLog) : M unit :=
  let rekorLogs := root.RekorLogs trustedMaterial in
  (if negb (tlog.HasInclusionPromise entry) && negb (tlog.HasInclusionProof entry)
   then fail ErrMissingInclusion else mret ());;
  (if tlog.HasInclusionPromise entry then
     step (WVerifySET entry);;
     match VerifySET X entry rekorLogs with
     | Some _ => continue
     | None =>
         if trustIntegratedTime
         then appendTimestamp
                {| Time := tlog.IntegratedTime entry; URI := root.BaseURL tlogVerifier |}
         else mret ()
     end
   else mret ());;
  (if tlog.HasInclusionProof entry then
     step (WLoadVerifier tlogVerifier);;
     match getVerifier (root.PublicKey tlogVerifier) (root.SignatureHashFunc tlogVerifier) with
     | Err err => fail err
     | Ok verifier =>
         step (WVerifyInclusion entry);;
         match VerifyInclusion X entry verifier with
         | Some err => fail err
         | None => mret ()
         end
     end
   else mret ()).

(** Lines 123-156: the online branch. *)
Definition verifyOnline (entry : tlog.Entry) (tlogVerifier : root.TransparencyLog) : M unit :=
  step (WRekorClientGetter (root.BaseURL tlogVerifier));;
  match RekorClientGetter X (root.BaseURL tlogVerifier) with
  | Err err => fail err
  | Ok client =>
      step (WLoadVerifier tlogVerifier);;
      match getVerifier (root.PublicKey tlogVerifier) (root.SignatureHashFunc tlogVerifier) with
      | Err err => fail err
      | Ok verifier =>
          let logIndex := tlog.LogIndex entry in
          step (WGetLogEntryByIndex logIndex);;
          match GetLogEntryByIndex X client logIndex with
          | Err err => fail err
          | Ok payload =>
              (if bool_decide (length payload = 0%nat)
               then fail (ErrNotFound logIndex) else mret ());;
              rangePayload payload verifier;;
              if trustIntegratedTime
              then appendTimestamp
                     {| Time := tlog.IntegratedTime entry; URI := root.BaseURL tlogVerifier |}
              else mret ()
          end
      end
  end.

Variable entitySignature : list byte.
Variable verificationContent : VerificationContent.

(** Lines 158-176: the three cross-checks and the count. *)
Definition checkConsistency (entry : tlog.Entry) : M unit :=
  step (WSignatureEqual entry);;
  (if negb (bytes_Equal (tlog.Signature entry) entitySignature)
   then fail ErrSignatureMismatch else mret ());;
  step (WCompareKey entry);;
  (if negb (CompareKey verificationContent (tlog.PublicKey entry) trustedMaterial)
   then fail ErrCertificateMismatch else mret ());;
  step (WValidAtTime entry);;
  (if negb (ValidAtTime verificationContent (tlog.IntegratedTime entry) trustedMaterial)
   then fail ErrIntegratedTime else mret ());;
  incrVerified.

(** Lines 83-176: one iteration of the loop over the entries. *)
Definition loopBody (entry : tlog.Entry) : M unit :=
  step (WValidateEntry entry);;
  match ValidateEntry X entry with
  | Some err => fail err
  | None =>
      let keyID := tlog.LogKeyID entry in
      let hex64Key := hex.EncodeToString keyID in
      step (WLookup hex64Key);;
      match root.RekorLogs trustedMaterial !! hex64Key with
      | None => continue
      | Some tlogVerifier =>
          (if negb online
           then verifyOffline entry tlogVerifier
           else verifyOnline entry tlogVerifier);;
          checkConsistency entry
      end
  end.

(** Lines 82-177: the loop; [Some err] when an iteration returned. *)
Fixpoint rangeEntries (entries : list tlog.Entry) (s : St) : St * option error :=
  match entries with
  | [] => (s, None)
  | entry :: rest =>
      match loopBody entry s with
      | (s', Return err) => (s', Some err)
      | (s', _) => rangeEntries rest s'
      end
  end.

End Verify.

#[global] Existing Instance M_ret.
#[global] Existing Instance M_bind.

Arguments mkSt {X} _ _ _.
Arguments verifiedTimestamps {X} _.
Arguments logEntriesVerified {X} _.
Arguments work {X} _.

(** The loop starts from [verifiedTimestamps := []Timestamp{}] and
    [logEntriesVerified := 0], with no work done. *)
Definition initial {X} : St X := mkSt [] 0 [].

(** Lines 47-184. *)
Definition VerifyArtifactTransparencyLog (X : Collaborators) (entity : SignedEntity)
    (trustedMaterial : root.TrustedMaterial) (logThreshold : Z)
    (trustIntegratedTime online : bool) : list (Work X) * result (list Timestamp) :=
  match TlogEntries entity with
  | Err err => ([], Err err)
  | Ok entries =>
      if bool_decide (maxAllowedTlogEntries < length entries)%nat
      then ([], Err (ErrTooManyEntries (length entries)))
      else if hasDuplicates entries
      then ([], Err ErrDuplicateEntries)
      else
        match GetSignatureContent entity with
        | Err err => ([], Err err)
        | Ok sigContent =>
            let entitySignature := Signature sigContent in
            match GetVerificationContent entity with
            | Err err => ([], Err err)
            | Ok verificationContent =>
                match rangeEntries X trustedMaterial trustIntegratedTime online
                        entitySignature verificationContent entries initial with
                | (s, Some err) => (work s, Err err)
                | (s, None) =>
                    if bool_decide (logEntriesVerified s < logThreshold)
                    then (work s, Err (ErrNotEnough (logEntriesVerified s) logThreshold))
                    else (work s, Ok (verifiedTimestamps s))
                end
            end
        end
  end.

(** The text of each error ([err.Error()]); [%d] prints in decimal. *)
Definition Error (err : error) : string :=
  match err with
  | ErrTooManyEntries n =>
      "too many tlog entries: " +:+ pretty n +:+ " > " +:+ pretty maxAllowedTlogEntries
  | ErrDuplicateEntries => "duplicate tlog entries found"
  | ErrMissingInclusion => "entry must contain an inclusion proof and/or promise"
  | ErrNotFound logIndex => "unable to locate log entry " +:+ pretty logIndex
  | ErrSignatureMismatch => "transparency log signature does not match"
  | ErrCertificateMismatch => "transparency log certificate does not match"
  | ErrIntegratedTime => "integrated time outside certificate validity"
  | ErrNotEnough verified threshold =>
      "not enough verified log entries from transparency log: "
        +:+ pretty verified +:+ " < " +:+ pretty threshold
  | Upstream msg => msg
  end.

(** ** Vocabulary of the properties *)

(** [shift s0 d]: the state [s0] followed by the changes [d] made from
    the initial state. *)
Definition shift {X} (s0 d : St X) : St X :=
  mkSt (verifiedTimestamps s0 ++ verifiedTimestamps d)
       (logEntriesVerified s0 + logEntriesVerified d)
       (work s0 ++ work d).

(** A statement reads none of the loop's variables: run from [s0] it
    does what it does from the initial state, after [s0]. *)
Definition framed {X A} (m : M X A) : Prop :=
  ∀ s0, m s0 = (shift s0 (m initial).1, (m initial).2).

(** A statement leaves the count alone. *)
Definition keepsCount {X A} (m : M X A) : Prop :=
  ∀ s, logEntriesVerified (m s).1 = logEntriesVerified s.

(** A statement never ends in [continue]. *)
Definition neverContinues {X A} (m : M X A) : Prop :=
  ∀ s, (m s).2 ≠ Continue.

(** The entry-count and duplicate checks of lines 54-65 both pass. *)
Definition passesAdmission (entries : list tlog.Entry) : Prop :=
  (length entries ≤ maxAllowedTlogEntries)%nat ∧ hasDuplicates entries = false.

(** Two positions of the list hold entries of one identity. *)
Definition sharesIdentity (entries : list tlog.Entry) : Prop :=
  ∃ i j a b, i ≠ j ∧ entries !! i = Some a ∧ entries !! j = Some b
             ∧ tlog.LogKeyID a = tlog.LogKeyID b ∧ tlog.LogIndex a = tlog.LogIndex b.

(** The state [s] with the steps [ws] added to the work done. *)
Definition did {X} (s : St X) (ws : list (Work X)) : St X :=
  mkSt (verifiedTimestamps s) (logEntriesVerified s) (work s ++ ws).

(** Lines 96-157 as one statement: the evidence check of the mode the
    operation runs in. *)
Definition verifyEvidence (X : Collaborators) (trustedMaterial : root.TrustedMaterial)
    (trustIntegratedTime online : bool) (entry : tlog.Entry)
    (tlogVerifier : root.TransparencyLog) : M X unit :=
  if negb online
  then verifyOffline X trustedMaterial trustIntegratedTime entry tlogVerifier
  else verifyOnline X trustIntegratedTime entry tlogVerifier.

(** An entry's identity for the duplicate scan. *)
Definition identity (e : tlog.Entry) : string * Z := (tlog.LogKeyID e, tlog.LogIndex e).

(** What one iteration does to an entry, seen from the initial state:
    how it ends, whether it counts, and the timestamps it adds. *)
Definition outcome (X : Collaborators) (trustedMaterial : root.TrustedMaterial)
    (trustIntegratedTime online : bool) (entitySignature : list byte)
    (verificationContent : VerificationContent) (e : tlog.Entry) : Flow unit :=
  (loopBody X trustedMaterial trustIntegratedTime online entitySignature
     verificationContent e initial).2.

Definition counts (X : Collaborators) (trustedMaterial : root.TrustedMaterial)
    (trustIntegratedTime online : bool) (entitySignature : list byte)
    (verificationContent : VerificationContent) (e : tlog.Entry) : bool :=
  match outcome X trustedMaterial trustIntegratedTime online entitySignature
          verificationContent e with
  | Next _ => true
  | _ => false
  end.

Definition stamps (X : Collaborators) (trustedMaterial : root.TrustedMaterial)
    (trustIntegratedTime online : bool) (entitySignature : list byte)
    (verificationContent : VerificationContent) (e : tlog.Entry) : list Timestamp :=
  verifiedTimestamps
    (loopBody X trustedMaterial trustIntegratedTime online entitySignature
       verificationContent e initial).1.

(** The operation gets to the entry [e], after [pre] and before [post],
    with the loop's variables at [s]: the entity's parts are there, the
    admission checks pass and the iterations over [pre] returned no
    error. *)
Definition reaches (X : Collaborators) (entity : SignedEntity)
    (trustedMaterial : root.TrustedMaterial) (trustIntegratedTime online : bool)
    (sigContent : SignatureContent) (verificationContent : VerificationContent)
    (pre : list tlog.Entry) (e : tlog.Entry) (post : list tlog.Entry) (s : St X) : Prop :=
  TlogEntries entity = Ok (pre ++ e :: post)
  ∧ passesAdmission (pre ++ e :: post)
  ∧ GetSignatureContent entity = Ok sigContent
  ∧ GetVerificationContent entity = Ok verificationContent
  ∧ rangeEntries X trustedMaterial trustIntegratedTime online
      (Signature sigContent) verificationContent pre initial = (s, None).

(** ** A small world to run the operation in

    One trusted log, keyed by the hex of the key id "k".  The
    collaborators read their verdict off the entry's body: an empty body
    is malformed, a byte 01 makes the SET check fail, a byte 02 the
    inclusion check.  The remote log has nothing at index 404 and a
    record that does not verify at index 500. *)
Module Demo.

Definition X : Collaborators := {|
  Verifier := unit;
  Rekor := unit;
  LogEntryAnon := bool;
  ValidateEntry e :=
    match tlog.Body e with [] => Some (Upstream "tlog entry has no body") | _ => None end;
  VerifySET e _ :=
    if bool_decide (x01 ∈ tlog.Body e)
    then Some (Upstream "unable to verify SET") else None;
  VerifyInclusion e _ :=
    if bool_decide (x02 ∈ tlog.Body e)
    then Some (Upstream "unable to verify inclusion proof") else None;
  LoadVerifier publicKey _ :=
    match publicKey with [] => Err (Upstream "unsupported public key") | _ => Ok () end;
  RekorClientGetter url :=
    match url with EmptyString => Err (Upstream "empty url") | _ => Ok () end;
  GetLogEntryByIndex _ logIndex :=
    if bool_decide (logIndex = 404) then Ok []
    else if bool_decide (logIndex = 500) then Ok [true; false]
    else Ok [true];
  VerifyLogEntry v _ := if v then None else Some (Upstream "unable to verify log entry")
|}.

Definition rekor : root.TransparencyLog := {|
  root.BaseURL := "https://rekor.example";
  root.PublicKey := [x04];
  root.SignatureHashFunc := 5
|}.

Definition trusted : root.TrustedMaterial := {|
  root.RekorLogs := {[ "6b" := rekor ]}
|}.

Definition content : VerificationContent := {|
  CompareKey publicKey _ := bool_decide (publicKey = [x0a]);
  ValidAtTime t _ := bool_decide (100 ≤ t ≤ 200)
|}.

Definition signed : SignatureContent := {| Signature := [x53] |}.

(** An entry of the trusted log at [logIndex] that passes the three
    cross-checks. *)
Definition entry (logIndex : Z) (promise proof : bool) (body : list byte) : tlog.Entry := {|
  tlog.LogKeyID := "k";
  tlog.LogIndex := logIndex;
  tlog.IntegratedTime := 150;
  tlog.Signature := [x53];
  tlog.PublicKey := [x0a];
  tlog.HasInclusionPromise := promise;
  tlog.HasInclusionProof := proof;
  tlog.Body := body
|}.

(** An entry of a log the trust root does not know. *)
Definition stranger (logIndex : Z) : tlog.Entry := {|
  tlog.LogKeyID := "z";
  tlog.LogIndex := logIndex;
  tlog.IntegratedTime := 150;
  tlog.Signature := [x53];
  tlog.PublicKey := [x0a];
  tlog.HasInclusionPromise := false;
  tlog.HasInclusionProof := true;
  tlog.Body := [x00]
|}.

Definition entity (entries : list tlog.Entry) : SignedEntity := {|
  TlogEntries := Ok entries;
  GetSignatureContent := Ok signed;
  GetVerificationContent := Ok content
|}.

(** An entry of the trusted log whose signature is not the artifact's. *)
Definition forged (logIndex : Z) : tlog.Entry := {|
  tlog.LogKeyID := "k";
  tlog.LogIndex := logIndex;
  tlog.IntegratedTime := 150;
  tlog.Signature := [x00];
  tlog.PublicKey := [x0a];
  tlog.HasInclusionPromise := false;
  tlog.HasInclusionProof := true;
  tlog.Body := [x00]
|}.

(** An entity whose signature content cannot be read. *)
Definition unsigned (entries : list tlog.Entry) : SignedEntity := {|
  TlogEntries := Ok entries;
  GetSignatureContent := Err (Upstream "missing signature content");
  GetVerificationContent := Ok content
|}.

End Demo.

(** ** Vocabulary of the further properties *)

(** Lines 89-91: the trusted log an entry names, if any. *)
Definition recognized (trustedMaterial : root.TrustedMaterial) (e : tlog.Entry)
  : option root.TransparencyLog :=
  root.RekorLogs trustedMaterial !! hex.EncodeToString (tlog.LogKeyID e).

(** Lines 96-105: offline, the entry carries a promise that fails its
    SET check. *)
Definition skippedBySET (X : Collaborators) (trustedMaterial : root.TrustedMaterial)
    (online : bool) (e : tlog.Entry) : bool :=
  negb online && tlog.HasInclusionPromise e
  && match VerifySET X e (root.RekorLogs trustedMaterial) with
     | Some _ => true
     | None => false
     end.

(** The steps that go to the remote log, and those that check evidence
    held in the entry. *)
Definition remoteWork {X} (w : Work X) : bool :=
  match w with
  | WRekorClientGetter _ _ | WGetLogEntryByIndex _ _ | WVerifyLogEntry _ _ => true
  | _ => false
  end.

Definition localEvidenceWork {X} (w : Work X) : bool :=
  match w with
  | WVerifySET _ _ | WVerifyInclusion _ _ => true
  | _ => false
  end.

(** A statement adds only steps that satisfy [P] to the work done. *)
Definition worksWithin {X A} (P : Work X → Prop) (m : M X A) : Prop :=
  ∀ s, Forall P (work s) → Forall P (work (m s).1).

(** Two states agree on all but the timestamps, and two statements act
    alike on such states. *)
Definition agree {X} (s s' : St X) : Prop :=
  logEntriesVerified s = logEntriesVerified s' ∧ work s = work s'.

Definition alike {X A} (m m' : M X A) : Prop :=
  ∀ s s', agree s s' → agree (m s).1 (m' s').1 ∧ (m s).2 = (m' s').2.

(** * Properties *)

Section Properties.

Context (X : Collaborators) (trustedMaterial : root.TrustedMaterial).
Context (trustIntegratedTime online : bool).
Context (entitySignature : list byte) (verificationContent : VerificationContent).

Abbreviation body := (loopBody X trustedMaterial trustIntegratedTime online
                    entitySignature verificationContent).
Abbreviation loop := (rangeEntries X trustedMaterial trustIntegratedTime online
                    entitySignature verificationContent).

Implicit Types (s : St X) (e entry : tlog.Entry) (entries : list tlog.Entry).

(** *** The state monad *)

Lemma shift_initial_l s : shift initial s = s.
Proof. destruct s; unfold shift; simpl. f_equal. Qed.

Lemma shift_initial_r s : shift s initial = s.
Proof.
  destruct s; unfold shift; simpl. rewrite !app_nil_r, Z.add_0_r. done.
Qed.

Lemma shift_assoc s1 s2 s3 : shift s1 (shift s2 s3) = shift (shift s1 s2) s3.
Proof. unfold shift; simpl. rewrite !app_assoc, Z.add_assoc. done. Qed.

Lemma framed_ret {A} (a : A) : framed (mret a : M X A).
Proof. intros s0. cbn. by rewrite shift_initial_r. Qed.

Lemma framed_fail {A} err : framed (fail X err : M X A).
Proof. intros s0. cbn. by rewrite shift_initial_r. Qed.

Lemma framed_continue {A} : framed (continue X : M X A).
Proof. intros s0. cbn. by rewrite shift_initial_r. Qed.

Lemma framed_step w : framed (step X w).
Proof. intros s0. unfold step, shift; cbn. by rewrite !app_nil_r, Z.add_0_r. Qed.

Lemma framed_appendTimestamp t : framed (appendTimestamp X t).
Proof.
  intros s0. unfold appendTimestamp, shift; cbn.
  by rewrite !app_nil_r, Z.add_0_r.
Qed.

Lemma framed_incrVerified : framed (incrVerified X).
Proof. intros s0. unfold incrVerified, shift; cbn. by rewrite !app_nil_r. Qed.

Lemma framed_bind {A B} (m : M X A) (f : A → M X B) :
  framed m → (∀ a, framed (f a)) → framed (m ≫= f).
Proof.
  intros Hm Hf s0. unfold mbind, M_bind. rewrite (Hm s0).
  destruct (m initial) as [d [a| |err]]; simpl; try done.
  rewrite (Hf a (shift s0 d)), (Hf a d); simpl.
  by rewrite shift_assoc.
Qed.

Ltac solve_framed :=
  repeat first
    [ apply framed_ret | apply framed_fail | apply framed_continue
    | apply framed_step | apply framed_appendTimestamp
    | apply framed_incrVerified
    | apply framed_bind; [| intros ?]
    | case_match ].

Lemma framed_rangePayload payload verifier :
  framed (rangePayload X payload verifier).
Proof.
  induction payload as [|v rest IH]; simpl; [apply framed_ret|].
  apply framed_bind; [apply framed_step|]. intros _.
  destruct (VerifyLogEntry X v verifier); [apply framed_fail | apply IH].
Qed.

Lemma framed_verifyOffline e l :
  framed (verifyOffline X trustedMaterial trustIntegratedTime e l).
Proof. unfold verifyOffline. solve_framed. Qed.

Lemma framed_verifyOnline e l :
  framed (verifyOnline X trustIntegratedTime e l).
Proof.
  unfold verifyOnline.
  repeat first
    [ apply framed_rangePayload | apply framed_ret | apply framed_fail
    | apply framed_step | apply framed_appendTimestamp
    | apply framed_bind; [| intros ?]
    | case_match ].
Qed.

Lemma framed_checkConsistency e :
  framed (checkConsistency X trustedMaterial entitySignature verificationContent e).
Proof. unfold checkConsistency. solve_framed. Qed.

(** One iteration does the same whatever the loop's variables hold
    when it starts. *)
Lemma framed_body e : framed (body e).
Proof.
  unfold loopBody.
  repeat first
    [ apply framed_verifyOffline | apply framed_verifyOnline
    | apply framed_checkConsistency | apply framed_fail
    | apply framed_continue | apply framed_step
    | apply framed_bind; [| intros ?]
    | case_match ].
Qed.

Lemma loop_frame entries s0 :
  loop entries s0 = (shift s0 (loop entries initial).1, (loop entries initial).2).
Proof.
  revert s0. induction entries as [|e rest IH]; intros s0; simpl.
  { by rewrite shift_initial_r. }
  rewrite (framed_body e s0).
  destruct (body e initial) as [d [[]| |err]]; simpl; try done.
  all: rewrite (IH (shift s0 d)), (IH d); simpl; by rewrite shift_assoc.
Qed.

(** *** Unfolding one iteration *)

Abbreviation evidence := (verifyEvidence X trustedMaterial trustIntegratedTime online).
Abbreviation consistency :=
  (checkConsistency X trustedMaterial entitySignature verificationContent).
Abbreviation hexKey e := (hex.EncodeToString (tlog.LogKeyID e)).

Lemma body_invalid e s err :
  ValidateEntry X e = Some err →
  body e s = (did s [WValidateEntry X e], Return err).
Proof. intros H. unfold loopBody, mbind, M_bind; simpl. by rewrite H. Qed.

Lemma body_unrecognized e s :
  ValidateEntry X e = None →
  root.RekorLogs trustedMaterial !! hexKey e = None →
  body e s = (did (did s [WValidateEntry X e]) [WLookup X (hexKey e)], Continue).
Proof.
  intros Hv Hl. unfold loopBody, mbind, M_bind; simpl. by rewrite Hv, Hl.
Qed.

Lemma body_recognized e s l :
  ValidateEntry X e = None →
  root.RekorLogs trustedMaterial !! hexKey e = Some l →
  body e s =
    match evidence e l (did (did s [WValidateEntry X e]) [WLookup X (hexKey e)]) with
    | (s2, Next _) => consistency e s2
    | (s2, Continue) => (s2, Continue)
    | (s2, Return err) => (s2, Return err)
    end.
Proof.
  intros Hv Hl. unfold loopBody, verifyEvidence, mbind, M_bind; simpl.
  by rewrite Hv, Hl.
Qed.

(** The three cross-checks, in the order the code makes them. *)
Lemma consistency_cases e s :
  consistency e s =
    let s1 := did s [WSignatureEqual X e] in
    if negb (bytes_Equal (tlog.Signature e) entitySignature)
    then (s1, Return ErrSignatureMismatch)
    else
      let s2 := did s1 [WCompareKey X e] in
      if negb (CompareKey verificationContent (tlog.PublicKey e) trustedMaterial)
      then (s2, Return ErrCertificateMismatch)
      else
        let s3 := did s2 [WValidAtTime X e] in
        if negb (ValidAtTime verificationContent (tlog.IntegratedTime e) trustedMaterial)
        then (s3, Return ErrIntegratedTime)
        else (mkSt (verifiedTimestamps s) (logEntriesVerified s + 1) (work s3), Next ()).
Proof.
  unfold checkConsistency, mbind, M_bind; simpl.
  destruct (bytes_Equal _ _); simpl; [|done].
  destruct (CompareKey _ _ _); simpl; [|done].
  by destruct (ValidAtTime _ _ _).
Qed.

(** *** The count moves only at line 176 *)

Lemma keepsCount_bind {A B} (m : M X A) (f : A → M X B) :
  keepsCount m → (∀ a, keepsCount (f a)) → keepsCount (m ≫= f).
Proof.
  intros Hm Hf s. unfold mbind, M_bind. specialize (Hm s).
  destruct (m s) as [s1 [a| |err]]; simpl in *; try done.
  by rewrite Hf.
Qed.

Lemma keepsCount_ret {A} (a : A) : keepsCount (mret a : M X A).
Proof. done. Qed.
Lemma keepsCount_fail {A} err : keepsCount (fail X err : M X A).
Proof. done. Qed.
Lemma keepsCount_continue {A} : keepsCount (continue X : M X A).
Proof. done. Qed.
Lemma keepsCount_step w : keepsCount (step X w).
Proof. done. Qed.
Lemma keepsCount_appendTimestamp t : keepsCount (appendTimestamp X t).
Proof. done. Qed.

Lemma keepsCount_rangePayload payload verifier :
  keepsCount (rangePayload X payload verifier).
Proof.
  induction payload as [|v rest IH]; simpl; [done|].
  apply keepsCount_bind; [done|]. intros _.
  by destruct (VerifyLogEntry X v verifier).
Qed.

Ltac solve_keepsCount :=
  repeat first
    [ apply keepsCount_rangePayload | apply keepsCount_ret
    | apply keepsCount_fail | apply keepsCount_continue
    | apply keepsCount_step | apply keepsCount_appendTimestamp
    | apply keepsCount_bind; [| intros ?]
    | case_match ].

Lemma keepsCount_evidence e l : keepsCount (evidence e l).
Proof.
  unfold verifyEvidence, verifyOffline, verifyOnline. solve_keepsCount.
Qed.

(** *** The online branch has no [continue] *)

Lemma neverContinues_bind {A B} (m : M X A) (f : A → M X B) :
  neverContinues m → (∀ a, neverContinues (f a)) → neverContinues (m ≫= f).
Proof.
  intros Hm Hf s. unfold mbind, M_bind. specialize (Hm s).
  destruct (m s) as [s1 [a| |err]]; simpl in *; try done.
  apply Hf.
Qed.

Lemma neverContinues_rangePayload payload verifier :
  neverContinues (rangePayload X payload verifier).
Proof.
  induction payload as [|v rest IH]; simpl; [done|].
  apply neverContinues_bind; [done|]. intros _.
  by destruct (VerifyLogEntry X v verifier).
Qed.

Lemma neverContinues_verifyOnline e l :
  neverContinues (verifyOnline X trustIntegratedTime e l).
Proof.
  unfold verifyOnline.
  repeat first
    [ apply neverContinues_rangePayload
    | apply neverContinues_bind; [| intros ?]
    | case_match
    | done ].
Qed.

(** *** The loop *)

Lemma body_count e s :
  logEntriesVerified (body e s).1 =
    logEntriesVerified s + match (body e s).2 with Next _ => 1 | _ => 0 end.
Proof.
  destruct (ValidateEntry X e) as [msg|] eqn:Hv.
  { rewrite (body_invalid e s msg Hv); simpl. lia. }
  destruct (root.RekorLogs trustedMaterial !! hexKey e) as [l|] eqn:Hl.
  2: { rewrite (body_unrecognized e s Hv Hl); simpl. lia. }
  rewrite (body_recognized e s l Hv Hl).
  pose proof (keepsCount_evidence e l
    (did (did s [WValidateEntry X e]) [WLookup X (hexKey e)])) as Hk.
  destruct (evidence e l _) as [s2 [[]| |err]]; simpl in *; try lia.
  rewrite consistency_cases; simpl.
  repeat (case_match; simpl); lia.
Qed.

Lemma loop_app pre post s :
  loop (pre ++ post) s =
    match loop pre s with
    | (s', Some err) => (s', Some err)
    | (s', None) => loop post s'
    end.
Proof.
  revert s. induction pre as [|e pre IH]; intros s; simpl; [done|].
  destruct (body e s) as [s' [[]| |err]]; simpl; auto.
Qed.

(** The loop ends without an error exactly when no entry returns one. *)
Lemma loop_None entries s :
  (loop entries s).2 = None ↔
  Forall (λ e, ∀ err, (body e initial).2 ≠ Return err) entries.
Proof.
  revert s. induction entries as [|e rest IH]; intros s; simpl.
  { split; [constructor | done]. }
  rewrite (framed_body e s), Forall_cons.
  destruct (body e initial) as [d [[]| |err]]; simpl.
  - rewrite IH. split; [intros H; split; [done | exact H] | by intros [_ H]].
  - rewrite IH. split; [intros H; split; [done | exact H] | by intros [_ H]].
  - split; [done | intros [H _]; by destruct (H err)].
Qed.

Lemma loop_count_bounds entries s :
  logEntriesVerified s ≤ logEntriesVerified (loop entries s).1
    ≤ logEntriesVerified s + Z.of_nat (length entries).
Proof.
  revert s. induction entries as [|e rest IH]; intros s; simpl; [lia|].
  pose proof (body_count e s) as Hc.
  destruct (body e s) as [s' [[]| |err]]; simpl in *;
    try specialize (IH s'); lia.
Qed.

Abbreviation counted :=
  (counts X trustedMaterial trustIntegratedTime online entitySignature verificationContent).
Abbreviation stamped :=
  (stamps X trustedMaterial trustIntegratedTime online entitySignature verificationContent).

(** When the loop ends without an error, the count is the number of
    entries whose iteration fell through to line 176, and the
    timestamps are those of the entries, in order. *)
Lemma loop_ok entries s :
  (loop entries s).2 = None →
  logEntriesVerified (loop entries s).1 =
    logEntriesVerified s + Z.of_nat (length (filter (λ e, counted e = true) entries))
  ∧ verifiedTimestamps (loop entries s).1 =
      verifiedTimestamps s ++ (entries ≫= stamped).
Proof.
  revert s. induction entries as [|e rest IH]; intros s; simpl.
  { intros _. rewrite app_nil_r. split; [lia | done]. }
  pose proof (body_count e s) as Hc. rewrite filter_cons.
  unfold counts, stamps, outcome. revert Hc. rewrite (framed_body e s).
  destruct (body e initial) as [d [[]| |err]] eqn:Hb; simpl; intros Hc Hn;
    try done.
  all: destruct (IH _ Hn) as [-> ->]; simpl.
  all: rewrite Hc, <-app_assoc; split; [|done].
  all: unfold counts, outcome; simpl; lia.
Qed.

(** *** The duplicate scan *)

Lemma sameIdentity_spec a b : sameIdentity a b = true ↔ identity a = identity b.
Proof.
  unfold sameIdentity, identity.
  rewrite andb_true_iff, !bool_decide_eq_true. split.
  - by intros [-> ->].
  - intros [= -> ->]. done.
Qed.

Lemma existsb_sameIdentity e rest :
  existsb (sameIdentity e) rest = true ↔ identity e ∈ identity <$> rest.
Proof.
  rewrite existsb_exists, list_elem_of_fmap. split.
  - intros (b & Hin & Hs). exists b. split; [by apply sameIdentity_spec|].
    by apply list_elem_of_In.
  - intros (b & Hs & Hin). exists b. split; [by apply list_elem_of_In|].
    by apply sameIdentity_spec.
Qed.

Lemma hasDuplicates_NoDup entries :
  hasDuplicates entries = false ↔ NoDup (identity <$> entries).
Proof.
  induction entries as [|e rest IH]; simpl.
  { split; [constructor | done]. }
  rewrite NoDup_cons, orb_false_iff, IH, <-existsb_sameIdentity.
  by rewrite not_true_iff_false.
Qed.

Lemma hasDuplicates_sharesIdentity entries :
  hasDuplicates entries = true → sharesIdentity entries.
Proof.
  induction entries as [|e rest IH]; simpl; [done|].
  rewrite orb_true_iff, existsb_exists. intros [(b & Hin & Hs)|Hd].
  - apply list_elem_of_In, list_elem_of_lookup in Hin as [j Hj].
    apply sameIdentity_spec in Hs. injection Hs as Hk Hi.
    by exists 0%nat, (S j), e, b.
  - destruct (IH Hd) as (i & j & a & b & Hne & Ha & Hb & Hk & Hi).
    exists (S i), (S j), a, b. repeat split; try done. congruence.
Qed.

Lemma sharesIdentity_hasDuplicates entries :
  sharesIdentity entries ↔ hasDuplicates entries = true.
Proof.
  split; [|apply hasDuplicates_sharesIdentity].
  intros (i & j & a & b & Hne & Ha & Hb & Hk & Hi).
  destruct (hasDuplicates entries) eqn:Hd; [done|]. exfalso.
  apply hasDuplicates_NoDup in Hd.
  apply Hne, (proj1 (NoDup_alt _) Hd i j (identity a)); rewrite list_lookup_fmap.
  - by rewrite Ha.
  - rewrite Hb; simpl. unfold identity. by rewrite Hk, Hi.
Qed.

Lemma passesAdmission_Permutation entries entries' :
  entries ≡ₚ entries' → passesAdmission entries → passesAdmission entries'.
Proof.
  intros Hp [Hlen Hdup]. split; [by rewrite <-Hp|].
  apply hasDuplicates_NoDup. rewrite <-Hp. by apply hasDuplicates_NoDup.
Qed.

Lemma passesAdmission_remove pre e post :
  passesAdmission (pre ++ e :: post) → passesAdmission (pre ++ post).
Proof.
  intros [Hlen Hdup]. split.
  { rewrite length_app in *. simpl in Hlen. lia. }
  apply hasDuplicates_NoDup. apply hasDuplicates_NoDup in Hdup.
  rewrite fmap_app in *. rewrite fmap_cons in Hdup.
  apply NoDup_app in Hdup as (Hpre & Hdisj & Hpost).
  apply NoDup_cons in Hpost as [_ Hpost].
  apply NoDup_app. repeat split; [done| |done].
  intros x Hx Hx'. apply (Hdisj x Hx). by right.
Qed.

End Properties.

(** ** The operation as a whole *)

Section Operation.

Context (X : Collaborators) (trustedMaterial : root.TrustedMaterial).
Context (trustIntegratedTime online : bool).

Abbreviation Verify entity logThreshold :=
  (VerifyArtifactTransparencyLog X entity trustedMaterial logThreshold
     trustIntegratedTime online).

(** Past the admission checks and the entity's accessors, the operation
    is the loop followed by the threshold test. *)
Lemma Verify_loop entity entries sc vc logThreshold :
  TlogEntries entity = Ok entries →
  passesAdmission entries →
  GetSignatureContent entity = Ok sc →
  GetVerificationContent entity = Ok vc →
  Verify entity logThreshold =
    match rangeEntries X trustedMaterial trustIntegratedTime online
            (Signature sc) vc entries initial with
    | (s, Some err) => (work s, Err err)
    | (s, None) =>
        if bool_decide (logEntriesVerified s < logThreshold)
        then (work s, Err (ErrNotEnough (logEntriesVerified s) logThreshold))
        else (work s, Ok (verifiedTimestamps s))
    end.
Proof.
  intros He [Hlen Hdup] Hs Hv. unfold VerifyArtifactTransparencyLog.
  rewrite He, Hdup, Hs, Hv, bool_decide_eq_false_2; [done | lia].
Qed.

(** An error returned by the iteration the operation has got to is the
    operation's result. *)
Lemma Verify_reaches_return entity sc vc pre e post s s' err logThreshold :
  reaches X entity trustedMaterial trustIntegratedTime online sc vc pre e post s →
  loopBody X trustedMaterial trustIntegratedTime online (Signature sc) vc e s
    = (s', Return err) →
  Verify entity logThreshold = (work s', Err err).
Proof.
  intros (He & Hadm & Hs & Hv & Hpre) Hb.
  rewrite (Verify_loop entity _ sc vc logThreshold He Hadm Hs Hv).
  rewrite loop_app, Hpre; simpl. by rewrite Hb.
Qed.

(** An entry whose iteration returns an error makes the operation fail,
    wherever it stands in the list. *)
Lemma Verify_abort entity entries e logThreshold :
  TlogEntries entity = Ok entries →
  e ∈ entries →
  (∀ sc vc, ∃ err,
      outcome X trustedMaterial trustIntegratedTime online (Signature sc) vc e
        = Return err) →
  is_Err (Verify entity logThreshold).2.
Proof.
  intros He Hin Hfatal. unfold VerifyArtifactTransparencyLog. rewrite He.
  destruct (bool_decide _); [done|]. destruct (hasDuplicates entries); [done|].
  destruct (GetSignatureContent entity) as [sc|]; [|done].
  destruct (GetVerificationContent entity) as [vc|]; [|done].
  pose proof (loop_None X trustedMaterial trustIntegratedTime online
                (Signature sc) vc entries initial) as Hloop.
  destruct (rangeEntries _ _ _ _ _ _ entries initial) as [s [err|]]; [done|].
  simpl in Hloop. rewrite Forall_forall in Hloop.
  destruct (Hfatal sc vc) as [err Herr].
  by destruct (proj1 Hloop eq_refl e Hin err).
Qed.

(** The count stays within Go's [int]: it is at most the number of
    entries, which the admission check keeps at 32 or less. *)
Lemma logEntriesVerified_bounded entitySignature verificationContent entries :
  passesAdmission entries →
  0 ≤ logEntriesVerified
        (rangeEntries X trustedMaterial trustIntegratedTime online entitySignature
           verificationContent entries initial).1 ≤ 32.
Proof.
  intros [Hlen _].
  pose proof (loop_count_bounds X trustedMaterial trustIntegratedTime online
                entitySignature verificationContent entries initial) as Hb.
  simpl in Hb. unfold maxAllowedTlogEntries in Hlen. lia.
Qed.

End Operation.

(** ** The operation on small inputs *)

Example EncodeToString_k : hex.EncodeToString "k" = "6b".
Proof. reflexivity. Qed.

(** Two entries of the trusted log with inclusion proofs only, threshold
    2: both count and no timestamp comes back. *)
Example two_proofs_offline :
  (VerifyArtifactTransparencyLog Demo.X
     (Demo.entity [Demo.entry 1 false true [x00]; Demo.entry 2 false true [x00]])
     Demo.trusted 2 true false).2 = Ok [].
Proof. vm_compute. reflexivity. Qed.

(** One entry of an unknown log, threshold 1: nothing is verified. *)
Example one_stranger :
  (VerifyArtifactTransparencyLog Demo.X (Demo.entity [Demo.stranger 1])
     Demo.trusted 1 true false).2 = Err (ErrNotEnough 0 1).
Proof. vm_compute. reflexivity. Qed.

(** A verified promise yields the entry's integrated time, when asked for. *)
Example promise_timestamp :
  (VerifyArtifactTransparencyLog Demo.X (Demo.entity [Demo.entry 1 true false [x00]])
     Demo.trusted 1 true false).2
  = Ok [{| Time := 150; URI := "https://rekor.example" |}]
  ∧ (VerifyArtifactTransparencyLog Demo.X (Demo.entity [Demo.entry 1 true false [x00]])
       Demo.trusted 1 false false).2 = Ok [].
Proof. split; vm_compute; reflexivity. Qed.

(** A proof that does not verify is fatal, a failed SET check is not. *)
Example bad_proof_is_fatal :
  (VerifyArtifactTransparencyLog Demo.X (Demo.entity [Demo.entry 1 false true [x02]])
     Demo.trusted 0 true false).2 = Err (Upstream "unable to verify inclusion proof")
  ∧ (VerifyArtifactTransparencyLog Demo.X (Demo.entity [Demo.entry 1 true false [x01]])
       Demo.trusted 0 true false).2 = Ok [].
Proof. split; vm_compute; reflexivity. Qed.

Example Error_not_enough :
  Error (ErrNotEnough 2 3)
  = "not enough verified log entries from transparency log: 2 < 3".
Proof. vm_compute. reflexivity. Qed.

(** * The claims *)

(** ** Entry admission *)

(** C5: an entity with more than 32 entries is refused with the
    too-many-entries error, and the operation has then taken no step of
    per-entry work: no validation, no lookup, no cryptographic check. *)
Theorem C5_too_many_entries X entity trustedMaterial logThreshold
    trustIntegratedTime online entries :
  TlogEntries entity = Ok entries →
  (maxAllowedTlogEntries < length entries)%nat →
  VerifyArtifactTransparencyLog X entity trustedMaterial logThreshold
    trustIntegratedTime online
  = ([], Err (ErrTooManyEntries (length entries))).
Proof.
  intros He Hlen. unfold VerifyArtifactTransparencyLog.
  by rewrite He, bool_decide_eq_true_2.
Qed.

Lemma C5_too_many_entries_witness :
  VerifyArtifactTransparencyLog Demo.X
    (Demo.entity (replicate 33 (Demo.stranger 7))) Demo.trusted 1 true false
  = ([], Err (ErrTooManyEntries 33)).
Proof.
  apply (C5_too_many_entries Demo.X
           (Demo.entity (replicate 33 (Demo.stranger 7))) Demo.trusted 1 true false
           (replicate 33 (Demo.stranger 7))).
  - reflexivity.
  - vm_compute. lia.
Defined.

(** C6, as stated, fails: 33 copies of one entry share their identity,
    and the operation answers with the too-many-entries error of the
    earlier check. *)
Lemma C6_counterexample :
  ¬ (∀ X entity trustedMaterial logThreshold trustIntegratedTime online entries,
       TlogEntries entity = Ok entries →
       sharesIdentity entries →
       (VerifyArtifactTransparencyLog X entity trustedMaterial logThreshold
          trustIntegratedTime online).2 = Err ErrDuplicateEntries).
Proof.
  intros H.
  specialize (H Demo.X (Demo.entity (replicate 33 (Demo.stranger 7)))
                Demo.trusted 1 true false _ eq_refl).
  assert (sharesIdentity (replicate 33 (Demo.stranger 7))) as Hs.
  { by exists 0%nat, 1%nat, (Demo.stranger 7), (Demo.stranger 7). }
  specialize (H Hs). vm_compute in H. discriminate H.
Qed.

(** C6, amended: a list of at most 32 entries in which two positions
    hold entries of the same (logKeyID, logIndex) is refused with the
    duplicate-entries error, before any per-entry work. *)
Theorem C6_duplicate_entries X entity trustedMaterial logThreshold
    trustIntegratedTime online entries :
  TlogEntries entity = Ok entries →
  (length entries ≤ maxAllowedTlogEntries)%nat →
  sharesIdentity entries →
  VerifyArtifactTransparencyLog X entity trustedMaterial logThreshold
    trustIntegratedTime online
  = ([], Err ErrDuplicateEntries).
Proof.
  intros He Hlen Hs. apply sharesIdentity_hasDuplicates in Hs.
  unfold VerifyArtifactTransparencyLog.
  rewrite He, bool_decide_eq_false_2, Hs; [done | lia].
Qed.

Lemma C6_duplicate_entries_witness :
  VerifyArtifactTransparencyLog Demo.X
    (Demo.entity [Demo.entry 1 false true [x00]; Demo.stranger 7;
                  Demo.entry 1 true false [x00]]) Demo.trusted 1 true false
  = ([], Err ErrDuplicateEntries).
Proof.
  apply (C6_duplicate_entries Demo.X _ Demo.trusted 1 true false
           [Demo.entry 1 false true [x00]; Demo.stranger 7;
            Demo.entry 1 true false [x00]]).
  - reflexivity.
  - vm_compute. lia.
  - exists 0%nat, 2%nat, (Demo.entry 1 false true [x00]),
      (Demo.entry 1 true false [x00]).
    repeat split; try reflexivity. lia.
Defined.

(** ** The threshold *)

(** C3: once every entry has been processed without a fatal error, the
    operation fails, with the insufficient-entries error, exactly when
    the count of verified entries is below the threshold; with the count
    one short of the threshold it fails, and with the count at the
    threshold it returns the timestamps gathered. *)
Theorem C3_threshold X entity trustedMaterial logThreshold trustIntegratedTime
    online entries sc vc s :
  TlogEntries entity = Ok entries →
  passesAdmission entries →
  GetSignatureContent entity = Ok sc →
  GetVerificationContent entity = Ok vc →
  rangeEntries X trustedMaterial trustIntegratedTime online (Signature sc) vc
    entries initial = (s, None) →
  let r := (VerifyArtifactTransparencyLog X entity trustedMaterial logThreshold
              trustIntegratedTime online).2 in
  (is_Err r ↔ logEntriesVerified s < logThreshold)
  ∧ (logEntriesVerified s < logThreshold →
     r = Err (ErrNotEnough (logEntriesVerified s) logThreshold))
  ∧ (logThreshold ≤ logEntriesVerified s → r = Ok (verifiedTimestamps s))
  ∧ (logEntriesVerified s = logThreshold - 1 →
     r = Err (ErrNotEnough (logThreshold - 1) logThreshold))
  ∧ (logEntriesVerified s = logThreshold → r = Ok (verifiedTimestamps s)).
Proof.
  intros He Hadm Hs Hv Hloop r. subst r.
  rewrite (Verify_loop X trustedMaterial trustIntegratedTime online
             entity entries sc vc logThreshold He Hadm Hs Hv), Hloop.
  destruct (decide (logEntriesVerified s < logThreshold)) as [Hlt|Hge].
  - rewrite bool_decide_eq_true_2 by done; simpl.
    repeat split; try done; try lia. by intros ->.
  - rewrite bool_decide_eq_false_2 by done; simpl.
    repeat split; try done; lia.
Qed.

Lemma C3_threshold_witness :
  (VerifyArtifactTransparencyLog Demo.X
     (Demo.entity [Demo.entry 1 false true [x00]; Demo.entry 2 true false [x00];
                   Demo.stranger 3]) Demo.trusted 3 true false).2
    = Err (ErrNotEnough 2 3)
  ∧ (VerifyArtifactTransparencyLog Demo.X
       (Demo.entity [Demo.entry 1 false true [x00]; Demo.entry 2 true false [x00];
                     Demo.stranger 3]) Demo.trusted 2 true false).2
    = Ok [{| Time := 150; URI := "https://rekor.example" |}].
Proof.
  pose (entries := [Demo.entry 1 false true [x00]; Demo.entry 2 true false [x00];
                    Demo.stranger 3]).
  pose (s := (rangeEntries Demo.X Demo.trusted true false
                (Signature Demo.signed) Demo.content entries initial).1).
  assert (passesAdmission entries) as Hadm.
  { split; [vm_compute; lia | reflexivity]. }
  assert (rangeEntries Demo.X Demo.trusted true false
            (Signature Demo.signed) Demo.content entries initial = (s, None)) as Hloop.
  { vm_compute. reflexivity. }
  split.
  - apply (C3_threshold Demo.X (Demo.entity entries) Demo.trusted 3 true false
             entries Demo.signed Demo.content s eq_refl Hadm eq_refl eq_refl Hloop).
    vm_compute. reflexivity.
  - apply (C3_threshold Demo.X (Demo.entity entries) Demo.trusted 2 true false
             entries Demo.signed Demo.content s eq_refl Hadm eq_refl eq_refl Hloop).
    vm_compute. reflexivity.
Defined.

(** C10, as stated, fails: an entity with no entries whose signature
    content cannot be read is refused at line 69, threshold 0 or not. *)
Lemma C10_counterexample :
  ¬ (∀ X entity trustedMaterial trustIntegratedTime online,
       TlogEntries entity = Ok [] →
       (VerifyArtifactTransparencyLog X entity trustedMaterial 0
          trustIntegratedTime online).2 = Ok []).
Proof.
  intros H.
  specialize (H Demo.X (Demo.unsigned []) Demo.trusted true false eq_refl).
  vm_compute in H. discriminate H.
Qed.

(** C10, amended: the threshold is never checked to be positive.  When
    the entity's signature and verification content are there, the
    admission checks pass and no iteration returns an error, a threshold
    of 0 or less lets the operation succeed with whatever was verified,
    be it nothing; for an empty entry list and threshold 0 it returns
    the empty timestamp list. *)
Theorem C10_threshold_not_positive X entity trustedMaterial logThreshold
    trustIntegratedTime online entries sc vc s :
  TlogEntries entity = Ok entries →
  passesAdmission entries →
  GetSignatureContent entity = Ok sc →
  GetVerificationContent entity = Ok vc →
  rangeEntries X trustedMaterial trustIntegratedTime online (Signature sc) vc
    entries initial = (s, None) →
  logThreshold ≤ 0 →
  (VerifyArtifactTransparencyLog X entity trustedMaterial logThreshold
     trustIntegratedTime online).2 = Ok (verifiedTimestamps s)
  ∧ (entries = [] →
     VerifyArtifactTransparencyLog X entity trustedMaterial 0
       trustIntegratedTime online = ([], Ok [])).
Proof.
  intros He Hadm Hs Hv Hloop Hth. split.
  - rewrite (Verify_loop X trustedMaterial trustIntegratedTime online
               entity entries sc vc logThreshold He Hadm Hs Hv), Hloop.
    pose proof (loop_count_bounds X trustedMaterial trustIntegratedTime online
                  (Signature sc) vc entries initial) as Hb.
    rewrite Hloop in Hb; simpl in Hb.
    rewrite bool_decide_eq_false_2; [done | lia].
  - intros ->.
    by rewrite (Verify_loop X trustedMaterial trustIntegratedTime online
                  entity [] sc vc 0 He Hadm Hs Hv).
Qed.

Lemma C10_threshold_not_positive_witness :
  (VerifyArtifactTransparencyLog Demo.X (Demo.entity [Demo.stranger 3])
     Demo.trusted (-1) true false).2 = Ok [].
Proof.
  assert (passesAdmission [Demo.stranger 3]) as Hadm.
  { split; [vm_compute; lia | reflexivity]. }
  apply (C10_threshold_not_positive Demo.X (Demo.entity [Demo.stranger 3])
           Demo.trusted (-1) true false [Demo.stranger 3] Demo.signed Demo.content
           (rangeEntries Demo.X Demo.trusted true false (Signature Demo.signed)
              Demo.content [Demo.stranger 3] initial).1
           eq_refl Hadm eq_refl eq_refl).
  - vm_compute. reflexivity.
  - lia.
Defined.

(** ** The log resolver *)

(** C4: a well-formed entry whose hex-encoded key id is not in the
    trusted-log mapping is skipped, online or offline.  Its iteration
    ends in [continue] with the count and the timestamps as they were;
    the loop reaches, with it in the list, the verdict, the count and
    the timestamps it reaches without it; and the operation returns
    what it returns for the list without the entry. *)
Theorem C4_unrecognized_log_skipped X trustedMaterial trustIntegratedTime online e :
  ValidateEntry X e = None →
  root.RekorLogs trustedMaterial !! hex.EncodeToString (tlog.LogKeyID e) = None →
  (∀ entitySignature verificationContent s, ∃ s',
      loopBody X trustedMaterial trustIntegratedTime online entitySignature
        verificationContent e s = (s', Continue)
      ∧ logEntriesVerified s' = logEntriesVerified s
      ∧ verifiedTimestamps s' = verifiedTimestamps s)
  ∧ (∀ entitySignature verificationContent pre post,
       let r := rangeEntries X trustedMaterial trustIntegratedTime online
                  entitySignature verificationContent (pre ++ e :: post) initial in
       let r' := rangeEntries X trustedMaterial trustIntegratedTime online
                   entitySignature verificationContent (pre ++ post) initial in
       r.2 = r'.2
       ∧ logEntriesVerified r.1 = logEntriesVerified r'.1
       ∧ verifiedTimestamps r.1 = verifiedTimestamps r'.1)
  ∧ (∀ entity entity' pre post logThreshold,
       TlogEntries entity = Ok (pre ++ e :: post) →
       TlogEntries entity' = Ok (pre ++ post) →
       GetSignatureContent entity' = GetSignatureContent entity →
       GetVerificationContent entity' = GetVerificationContent entity →
       passesAdmission (pre ++ e :: post) →
       (VerifyArtifactTransparencyLog X entity trustedMaterial logThreshold
          trustIntegratedTime online).2
       = (VerifyArtifactTransparencyLog X entity' trustedMaterial logThreshold
            trustIntegratedTime online).2).
Proof.
  intros Hv Hl.
  assert (∀ entitySignature verificationContent pre post,
            let r := rangeEntries X trustedMaterial trustIntegratedTime online
                       entitySignature verificationContent (pre ++ e :: post) initial in
            let r' := rangeEntries X trustedMaterial trustIntegratedTime online
                        entitySignature verificationContent (pre ++ post) initial in
            r.2 = r'.2
            ∧ logEntriesVerified r.1 = logEntriesVerified r'.1
            ∧ verifiedTimestamps r.1 = verifiedTimestamps r'.1) as Hloop.
  { intros sig vc pre post r r'. subst r r'. rewrite !loop_app.
    destruct (rangeEntries _ _ _ _ _ _ pre initial) as [s [err|]]; [done|].
    simpl. rewrite (body_unrecognized _ _ _ _ _ _ e s Hv Hl).
    set (s1 := did _ _).
    rewrite (loop_frame _ _ _ _ _ _ post s1), (loop_frame _ _ _ _ _ _ post s).
    done. }
  split; [|split; [exact Hloop|]].
  - intros sig vc s. eexists. split; [by apply body_unrecognized|done].
  - intros entity entity' pre post logThreshold He He' Hs' Hv' Hadm.
    pose proof (passesAdmission_remove pre e post Hadm) as Hadm'.
    destruct Hadm as [Hlen Hdup], Hadm' as [Hlen' Hdup'].
    unfold VerifyArtifactTransparencyLog.
    rewrite He, He', Hs', Hv', Hdup, Hdup', !bool_decide_eq_false_2 by lia.
    destruct (GetSignatureContent entity) as [sc|]; [|done].
    destruct (GetVerificationContent entity) as [vc|]; [|done].
    destruct (Hloop (Signature sc) vc pre post) as (Hr & Hc & Ht).
    destruct (rangeEntries _ _ _ _ _ _ (pre ++ e :: post) initial) as [s o];
      destruct (rangeEntries _ _ _ _ _ _ (pre ++ post) initial) as [s' o'].
    simpl in *. subst o'. destruct o as [err|]; [done|].
    rewrite Hc, Ht. by case_bool_decide.
Qed.

Lemma C4_unrecognized_log_skipped_witness :
  ∃ s', loopBody Demo.X Demo.trusted true false (Signature Demo.signed)
          Demo.content (Demo.stranger 3) initial = (s', Continue)
        ∧ logEntriesVerified s' = 0
        ∧ verifiedTimestamps s' = [].
Proof.
  apply (C4_unrecognized_log_skipped Demo.X Demo.trusted true false
           (Demo.stranger 3)).
  - reflexivity.
  - vm_compute. reflexivity.
Defined.

(** ** Offline evidence *)

(** C1, as stated, fails: an entry of the trusted log with a promise
    whose SET check fails and a proof that verifies, consistent with the
    artifact in signature, key and time, leaves the count where it was. *)
Lemma C1_counterexample :
  ¬ (∀ X trustedMaterial trustIntegratedTime entitySignature verificationContent
       e l verifier s,
       ValidateEntry X e = None →
       root.RekorLogs trustedMaterial !! hex.EncodeToString (tlog.LogKeyID e) = Some l →
       tlog.HasInclusionPromise e = true →
       tlog.HasInclusionProof e = true →
       is_Some (VerifySET X e (root.RekorLogs trustedMaterial)) →
       getVerifier X (root.PublicKey l) (root.SignatureHashFunc l) = Ok verifier →
       VerifyInclusion X e verifier = None →
       bytes_Equal (tlog.Signature e) entitySignature = true →
       CompareKey verificationContent (tlog.PublicKey e) trustedMaterial = true →
       ValidAtTime verificationContent (tlog.IntegratedTime e) trustedMaterial = true →
       logEntriesVerified
         (loopBody X trustedMaterial trustIntegratedTime false entitySignature
            verificationContent e s).1 = logEntriesVerified s + 1).
Proof.
  intros H.
  specialize (H Demo.X Demo.trusted true (Signature Demo.signed) Demo.content
                (Demo.entry 4 true true [x01]) Demo.rekor () initial).
  vm_compute in H.
  specialize (H eq_refl eq_refl eq_refl eq_refl (ex_intro _ _ eq_refl)
                eq_refl eq_refl eq_refl eq_refl eq_refl).
  discriminate H.
Qed.

(** C1, amended: offline, an entry of a recognized log that carries
    both an inclusion promise and an inclusion proof and whose SET check
    fails is skipped, whether or not the proof would verify.  Its
    iteration ends in [continue] after the SET check: the proof is not
    examined, the count stays, no timestamp is added and no error is
    returned. *)
Theorem C1_failed_SET_skips_entry X trustedMaterial trustIntegratedTime
    entitySignature verificationContent e l msg s :
  ValidateEntry X e = None →
  root.RekorLogs trustedMaterial !! hex.EncodeToString (tlog.LogKeyID e) = Some l →
  tlog.HasInclusionPromise e = true →
  tlog.HasInclusionProof e = true →
  VerifySET X e (root.RekorLogs trustedMaterial) = Some msg →
  loopBody X trustedMaterial trustIntegratedTime false entitySignature
    verificationContent e s
  = (did s [WValidateEntry X e;
            WLookup X (hex.EncodeToString (tlog.LogKeyID e));
            WVerifySET X e],
     Continue).
Proof.
  intros Hv Hl Hpromise _ Hset.
  rewrite (body_recognized _ _ _ _ _ _ e s l Hv Hl).
  unfold verifyEvidence, verifyOffline, mbind, M_bind; simpl.
  rewrite Hpromise; simpl. rewrite Hset. unfold did; simpl.
  by rewrite <-!app_assoc.
Qed.

Lemma C1_failed_SET_skips_entry_witness :
  loopBody Demo.X Demo.trusted true false (Signature Demo.signed) Demo.content
    (Demo.entry 4 true true [x01]) initial
  = (did initial [WValidateEntry Demo.X (Demo.entry 4 true true [x01]);
                  WLookup Demo.X "6b";
                  WVerifySET Demo.X (Demo.entry 4 true true [x01])],
     Continue).
Proof.
  apply (C1_failed_SET_skips_entry Demo.X Demo.trusted true
           (Signature Demo.signed) Demo.content (Demo.entry 4 true true [x01])
           Demo.rekor (Upstream "unable to verify SET") initial).
  - reflexivity.
  - vm_compute. reflexivity.
  - reflexivity.
  - reflexivity.
  - vm_compute. reflexivity.
Defined.

(** C7: offline, an entry of a recognized log that carries neither an
    inclusion promise nor an inclusion proof is never skipped: its
    iteration returns an error, which for a well-formed entry is the
    missing-inclusion-evidence error, and the operation fails whenever
    such an entry is in the list; when the operation gets to the entry,
    that error is its result. *)
Theorem C7_missing_inclusion_evidence X trustedMaterial trustIntegratedTime e l :
  root.RekorLogs trustedMaterial !! hex.EncodeToString (tlog.LogKeyID e) = Some l →
  tlog.HasInclusionPromise e = false →
  tlog.HasInclusionProof e = false →
  (∀ entitySignature verificationContent s,
     (∃ s' err,
        loopBody X trustedMaterial trustIntegratedTime false entitySignature
          verificationContent e s = (s', Return err))
     ∧ (ValidateEntry X e = None →
        loopBody X trustedMaterial trustIntegratedTime false entitySignature
          verificationContent e s
        = (did s [WValidateEntry X e;
                  WLookup X (hex.EncodeToString (tlog.LogKeyID e))],
           Return ErrMissingInclusion)))
  ∧ (∀ entity entries logThreshold,
       TlogEntries entity = Ok entries →
       e ∈ entries →
       is_Err (VerifyArtifactTransparencyLog X entity trustedMaterial
                 logThreshold trustIntegratedTime false).2)
  ∧ (∀ entity sc vc pre post s logThreshold,
       reaches X entity trustedMaterial trustIntegratedTime false sc vc pre e post s →
       ValidateEntry X e = None →
       (VerifyArtifactTransparencyLog X entity trustedMaterial logThreshold
          trustIntegratedTime false).2 = Err ErrMissingInclusion).
Proof.
  intros Hl Hpromise Hproof.
  assert (∀ entitySignature verificationContent s,
            ValidateEntry X e = None →
            loopBody X trustedMaterial trustIntegratedTime false entitySignature
              verificationContent e s
            = (did s [WValidateEntry X e;
                      WLookup X (hex.EncodeToString (tlog.LogKeyID e))],
               Return ErrMissingInclusion)) as Hvalid.
  { intros sig vc s Hv. rewrite (body_recognized _ _ _ _ _ _ e s l Hv Hl).
    unfold verifyEvidence, verifyOffline, mbind, M_bind; simpl.
    rewrite Hpromise, Hproof; simpl. unfold did; simpl.
    by rewrite <-!app_assoc. }
  assert (∀ entitySignature verificationContent s, ∃ s' err,
            loopBody X trustedMaterial trustIntegratedTime false entitySignature
              verificationContent e s = (s', Return err)) as Hany.
  { intros sig vc s. destruct (ValidateEntry X e) as [msg|] eqn:Hv.
    - eexists _, _. by apply body_invalid.
    - eexists _, _. by apply Hvalid. }
  split; [|split].
  - intros sig vc s. split; [apply Hany | apply Hvalid].
  - intros entity entries logThreshold He Hin.
    apply (Verify_abort X trustedMaterial trustIntegratedTime false
             entity entries e logThreshold He Hin).
    intros sc vc. destruct (Hany (Signature sc) vc initial) as (s' & err & Hb).
    exists err. unfold outcome. by rewrite Hb.
  - intros entity sc vc pre post s logThreshold Hr Hv.
    by rewrite (Verify_reaches_return X trustedMaterial trustIntegratedTime false
                  entity sc vc pre e post s _ _ logThreshold Hr
                  (Hvalid (Signature sc) vc s Hv)).
Qed.

Lemma C7_missing_inclusion_evidence_witness :
  (VerifyArtifactTransparencyLog Demo.X
     (Demo.entity [Demo.entry 1 false true [x00]; Demo.entry 2 false false [x00]])
     Demo.trusted 1 true false).2 = Err ErrMissingInclusion.
Proof.
  apply (C7_missing_inclusion_evidence Demo.X Demo.trusted true
           (Demo.entry 2 false false [x00]) Demo.rekor)
    with (sc := Demo.signed) (vc := Demo.content)
         (pre := [Demo.entry 1 false true [x00]]) (post := [])
         (s := (rangeEntries Demo.X Demo.trusted true false (Signature Demo.signed)
                  Demo.content [Demo.entry 1 false true [x00]] initial).1).
  - vm_compute. reflexivity.
  - reflexivity.
  - reflexivity.
  - repeat split; try (vm_compute; reflexivity). vm_compute. lia.
  - reflexivity.
Defined.

(** ** Online evidence *)

(** A record that does not verify makes the [range] over the payload
    return: the error is that of the first such record. *)
Lemma rangePayload_failing X payload verifier v msg (s : St X) :
  v ∈ payload →
  VerifyLogEntry X v verifier = Some msg →
  ∃ s' w err, w ∈ payload ∧ VerifyLogEntry X w verifier = Some err
              ∧ rangePayload X payload verifier s = (s', Return err).
Proof.
  intros Hin Hbad. revert s.
  induction payload as [|w rest IH]; intros s; [by apply not_elem_of_nil in Hin|].
  simpl. unfold mbind, M_bind; simpl.
  destruct (VerifyLogEntry X w verifier) as [msg'|] eqn:Hw.
  - eexists _, w, msg'. split; [by left | done].
  - apply elem_of_cons in Hin as [->|Hin]; [congruence|].
    destruct (IH Hin (did s [WVerifyLogEntry X w])) as (s' & w' & err & Hw' & Hbad' & Hr).
    exists s', w', err. split; [by right | done].
Qed.

(** C8: online, an entry of a recognized log is never skipped.  When
    the remote query for its log index returns no record, its iteration
    returns the not-found error; when a returned record fails the remote
    verification, it returns that failure; either way the operation
    fails, and no iteration of such an entry ends in [continue]. *)
Theorem C8_online_fatal X trustedMaterial trustIntegratedTime e l :
  root.RekorLogs trustedMaterial !! hex.EncodeToString (tlog.LogKeyID e) = Some l →
  (∀ entitySignature verificationContent s,
     (loopBody X trustedMaterial trustIntegratedTime true entitySignature
        verificationContent e s).2 ≠ Continue)
  ∧ (∀ client verifier,
       ValidateEntry X e = None →
       RekorClientGetter X (root.BaseURL l) = Ok client →
       getVerifier X (root.PublicKey l) (root.SignatureHashFunc l) = Ok verifier →
       GetLogEntryByIndex X client (tlog.LogIndex e) = Ok [] →
       (∀ entitySignature verificationContent s, ∃ s',
          loopBody X trustedMaterial trustIntegratedTime true entitySignature
            verificationContent e s = (s', Return (ErrNotFound (tlog.LogIndex e))))
       ∧ (∀ entity entries logThreshold,
            TlogEntries entity = Ok entries → e ∈ entries →
            is_Err (VerifyArtifactTransparencyLog X entity trustedMaterial
                      logThreshold trustIntegratedTime true).2)
       ∧ (∀ entity sc vc pre post s logThreshold,
            reaches X entity trustedMaterial trustIntegratedTime true sc vc pre e post s →
            (VerifyArtifactTransparencyLog X entity trustedMaterial logThreshold
               trustIntegratedTime true).2 = Err (ErrNotFound (tlog.LogIndex e))))
  ∧ (∀ client verifier payload v msg,
       ValidateEntry X e = None →
       RekorClientGetter X (root.BaseURL l) = Ok client →
       getVerifier X (root.PublicKey l) (root.SignatureHashFunc l) = Ok verifier →
       GetLogEntryByIndex X client (tlog.LogIndex e) = Ok payload →
       v ∈ payload →
       VerifyLogEntry X v verifier = Some msg →
       (∀ entitySignature verificationContent s, ∃ s' w err,
          w ∈ payload ∧ VerifyLogEntry X w verifier = Some err
          ∧ loopBody X trustedMaterial trustIntegratedTime true entitySignature
              verificationContent e s = (s', Return err))
       ∧ (∀ entity entries logThreshold,
            TlogEntries entity = Ok entries → e ∈ entries →
            is_Err (VerifyArtifactTransparencyLog X entity trustedMaterial
                      logThreshold trustIntegratedTime true).2)
       ∧ (∀ entity sc vc pre post s logThreshold,
            reaches X entity trustedMaterial trustIntegratedTime true sc vc pre e post s →
            ∃ w err,
              w ∈ payload ∧ VerifyLogEntry X w verifier = Some err
              ∧ (VerifyArtifactTransparencyLog X entity trustedMaterial logThreshold
                   trustIntegratedTime true).2 = Err err)).
Proof.
  intros Hl. split; [|split].
  - intros sig vc s. destruct (ValidateEntry X e) as [msg|] eqn:Hv.
    { by rewrite (body_invalid _ _ _ _ _ _ e s msg Hv). }
    rewrite (body_recognized _ _ _ _ _ _ e s l Hv Hl).
    unfold verifyEvidence; simpl.
    pose proof (neverContinues_verifyOnline X trustIntegratedTime e l
                  (did (did s [WValidateEntry X e])
                     [WLookup X (hex.EncodeToString (tlog.LogKeyID e))])) as Hn.
    destruct (verifyOnline _ _ _ _ _) as [s2 [[]| |err]]; simpl in *; try done.
    rewrite consistency_cases; simpl. by repeat case_match.
  - intros client verifier Hv Hclient Hverifier Hget.
    assert (∀ entitySignature verificationContent s, ∃ s',
              loopBody X trustedMaterial trustIntegratedTime true entitySignature
                verificationContent e s
              = (s', Return (ErrNotFound (tlog.LogIndex e)))) as Hbody.
    { intros sig vc s. rewrite (body_recognized _ _ _ _ _ _ e s l Hv Hl).
      unfold verifyEvidence, verifyOnline, mbind, M_bind; simpl.
      rewrite Hclient; simpl. rewrite Hverifier; simpl. rewrite Hget; simpl.
      by eexists. }
    split; [done|split].
    + intros entity entries logThreshold He Hin.
      apply (Verify_abort X trustedMaterial trustIntegratedTime true
               entity entries e logThreshold He Hin).
      intros sc vc. destruct (Hbody (Signature sc) vc initial) as (s' & Hb).
      eexists. unfold outcome. by rewrite Hb.
    + intros entity sc vc pre post s logThreshold Hr.
      destruct (Hbody (Signature sc) vc s) as (s' & Hb).
      by rewrite (Verify_reaches_return X trustedMaterial trustIntegratedTime true
                    entity sc vc pre e post s _ _ logThreshold Hr Hb).
  - intros client verifier payload v msg Hv Hclient Hverifier Hget Hin Hbad.
    assert (∀ entitySignature verificationContent s, ∃ s' w err,
              w ∈ payload ∧ VerifyLogEntry X w verifier = Some err
              ∧ loopBody X trustedMaterial trustIntegratedTime true entitySignature
                  verificationContent e s = (s', Return err)) as Hbody.
    { intros sig vc s. rewrite (body_recognized _ _ _ _ _ _ e s l Hv Hl).
      unfold verifyEvidence, verifyOnline, mbind, M_bind; simpl.
      rewrite Hclient; simpl. rewrite Hverifier; simpl. rewrite Hget.
      rewrite bool_decide_eq_false_2; simpl.
      2: { intros Hz. apply nil_length_inv in Hz. subst payload.
           by apply not_elem_of_nil in Hin. }
      match goal with |- context [rangePayload X ?p verifier ?s0] =>
        destruct (rangePayload_failing X p verifier v msg s0 Hin Hbad)
          as (s' & w & err & Hw & Hwbad & Hr) end.
      rewrite Hr. by exists s', w, err. }
    split; [done|split].
    + intros entity entries logThreshold He Hin'.
      apply (Verify_abort X trustedMaterial trustIntegratedTime true
               entity entries e logThreshold He Hin').
      intros sc vc.
      destruct (Hbody (Signature sc) vc initial) as (s' & w & err & _ & _ & Hb).
      exists err. unfold outcome. by rewrite Hb.
    + intros entity sc vc pre post s logThreshold Hr.
      destruct (Hbody (Signature sc) vc s) as (s' & w & err & Hw & Hwbad & Hb).
      exists w, err. repeat split; try done.
      by rewrite (Verify_reaches_return X trustedMaterial trustIntegratedTime true
                    entity sc vc pre e post s _ _ logThreshold Hr Hb).
Qed.

Lemma C8_online_fatal_witness :
  (VerifyArtifactTransparencyLog Demo.X
     (Demo.entity [Demo.entry 1 false true [x00]; Demo.entry 404 false true [x00]])
     Demo.trusted 1 true true).2 = Err (ErrNotFound 404).
Proof.
  assert (root.RekorLogs Demo.trusted
            !! hex.EncodeToString (tlog.LogKeyID (Demo.entry 404 false true [x00]))
          = Some Demo.rekor) as Hl.
  { vm_compute. reflexivity. }
  destruct (C8_online_fatal Demo.X Demo.trusted true
              (Demo.entry 404 false true [x00]) Demo.rekor Hl) as (_ & Hempty & _).
  destruct (Hempty () () eq_refl eq_refl eq_refl eq_refl) as (_ & _ & Hreached).
  apply (Hreached _ Demo.signed Demo.content [Demo.entry 1 false true [x00]] []
           (rangeEntries Demo.X Demo.trusted true true (Signature Demo.signed)
              Demo.content [Demo.entry 1 false true [x00]] initial).1).
  repeat split; try (vm_compute; reflexivity). vm_compute. lia.
Defined.

(** ** The consistency checker *)

Lemma did_did X (s : St X) ws ws' : did (did s ws) ws' = did s (ws ++ ws').
Proof. unfold did; simpl. by rewrite app_assoc. Qed.

(** An iteration falls through to line 176 only past the three checks. *)
Lemma body_Next_checks X trustedMaterial trustIntegratedTime online
    entitySignature verificationContent e s :
  (loopBody X trustedMaterial trustIntegratedTime online entitySignature
     verificationContent e s).2 = Next () →
  bytes_Equal (tlog.Signature e) entitySignature = true
  ∧ CompareKey verificationContent (tlog.PublicKey e) trustedMaterial = true
  ∧ ValidAtTime verificationContent (tlog.IntegratedTime e) trustedMaterial = true.
Proof.
  destruct (ValidateEntry X e) as [msg|] eqn:Hv.
  { by rewrite (body_invalid _ _ _ _ _ _ e s msg Hv). }
  destruct (root.RekorLogs trustedMaterial !! hex.EncodeToString (tlog.LogKeyID e))
    as [l|] eqn:Hl.
  2: { by rewrite (body_unrecognized _ _ _ _ _ _ e s Hv Hl). }
  rewrite (body_recognized _ _ _ _ _ _ e s l Hv Hl).
  destruct (verifyEvidence _ _ _ _ _ _ _) as [s2 [[]| |err]]; simpl; try done.
  rewrite consistency_cases; simpl.
  destruct (bytes_Equal _ _); simpl; [|done].
  destruct (CompareKey _ _ _); simpl; [|done].
  by destruct (ValidAtTime _ _ _).
Qed.

(** C2: an entry is counted only if its signature is byte-equal to the
    artifact's, its key compares equal under the verification content
    and its integrated time is valid there.  For an entry the operation
    gets to, well-formed, of a recognized log and with its evidence
    accepted, the first of the three checks to fail ends the operation
    with that check's error; when none fails the entry is counted. *)
Theorem C2_consistency_checks X trustedMaterial trustIntegratedTime online
    sc vc e :
  (∀ s,
     logEntriesVerified
       (loopBody X trustedMaterial trustIntegratedTime online (Signature sc) vc e s).1
       ≠ logEntriesVerified s →
     bytes_Equal (tlog.Signature e) (Signature sc) = true
     ∧ CompareKey vc (tlog.PublicKey e) trustedMaterial = true
     ∧ ValidAtTime vc (tlog.IntegratedTime e) trustedMaterial = true)
  ∧ (∀ entity pre post s l s2 logThreshold,
       reaches X entity trustedMaterial trustIntegratedTime online sc vc pre e post s →
       ValidateEntry X e = None →
       root.RekorLogs trustedMaterial !! hex.EncodeToString (tlog.LogKeyID e) = Some l →
       verifyEvidence X trustedMaterial trustIntegratedTime online e l
         (did s [WValidateEntry X e;
                 WLookup X (hex.EncodeToString (tlog.LogKeyID e))])
         = (s2, Next ()) →
       let r := (VerifyArtifactTransparencyLog X entity trustedMaterial logThreshold
                   trustIntegratedTime online).2 in
       (bytes_Equal (tlog.Signature e) (Signature sc) = false →
        r = Err ErrSignatureMismatch)
       ∧ (bytes_Equal (tlog.Signature e) (Signature sc) = true →
          CompareKey vc (tlog.PublicKey e) trustedMaterial = false →
          r = Err ErrCertificateMismatch)
       ∧ (bytes_Equal (tlog.Signature e) (Signature sc) = true →
          CompareKey vc (tlog.PublicKey e) trustedMaterial = true →
          ValidAtTime vc (tlog.IntegratedTime e) trustedMaterial = false →
          r = Err ErrIntegratedTime)
       ∧ (bytes_Equal (tlog.Signature e) (Signature sc) = true →
          CompareKey vc (tlog.PublicKey e) trustedMaterial = true →
          ValidAtTime vc (tlog.IntegratedTime e) trustedMaterial = true →
          logEntriesVerified
            (loopBody X trustedMaterial trustIntegratedTime online
               (Signature sc) vc e s).1 = logEntriesVerified s + 1))
  ∧ Error ErrSignatureMismatch = "transparency log signature does not match"
  ∧ Error ErrCertificateMismatch = "transparency log certificate does not match"
  ∧ Error ErrIntegratedTime = "integrated time outside certificate validity".
Proof.
  split; [|split; [|done]].
  - intros s Hc. apply (body_Next_checks X trustedMaterial trustIntegratedTime
                          online (Signature sc) vc e s).
    pose proof (body_count X trustedMaterial trustIntegratedTime online
                  (Signature sc) vc e s) as Hb.
    destruct (loopBody _ _ _ _ _ _ _ _).2 as [[]| |err]; [done|lia|lia].
  - intros entity pre post s l s2 logThreshold Hr Hv Hl Hev r.
    assert (loopBody X trustedMaterial trustIntegratedTime online (Signature sc) vc e s
            = checkConsistency X trustedMaterial (Signature sc) vc e s2) as Hb.
    { rewrite (body_recognized _ _ _ _ _ _ e s l Hv Hl), did_did. simpl.
      by rewrite Hev. }
    rewrite consistency_cases in Hb; simpl in Hb.
    repeat split.
    + intros Hsig. rewrite Hsig in Hb; simpl in Hb. subst r.
      by rewrite (Verify_reaches_return X trustedMaterial trustIntegratedTime online
                    entity sc vc pre e post s _ _ logThreshold Hr Hb).
    + intros Hsig Hkey. rewrite Hsig, Hkey in Hb; simpl in Hb. subst r.
      by rewrite (Verify_reaches_return X trustedMaterial trustIntegratedTime online
                    entity sc vc pre e post s _ _ logThreshold Hr Hb).
    + intros Hsig Hkey Htime. rewrite Hsig, Hkey, Htime in Hb; simpl in Hb. subst r.
      by rewrite (Verify_reaches_return X trustedMaterial trustIntegratedTime online
                    entity sc vc pre e post s _ _ logThreshold Hr Hb).
    + intros Hsig Hkey Htime. rewrite Hsig, Hkey, Htime in Hb; simpl in Hb.
      rewrite Hb; simpl.
      pose proof (keepsCount_evidence X trustedMaterial trustIntegratedTime online
                    e l (did s [WValidateEntry X e;
                                WLookup X (hex.EncodeToString (tlog.LogKeyID e))])) as Hk.
      rewrite Hev in Hk; simpl in Hk. lia.
Qed.

Lemma C2_consistency_checks_witness :
  (VerifyArtifactTransparencyLog Demo.X
     (Demo.entity [Demo.entry 1 false true [x00]; Demo.forged 2])
     Demo.trusted 1 true false).2 = Err ErrSignatureMismatch.
Proof.
  destruct (C2_consistency_checks Demo.X Demo.trusted true false
              Demo.signed Demo.content (Demo.forged 2)) as (_ & Hfail & _).
  pose (s := (rangeEntries Demo.X Demo.trusted true false (Signature Demo.signed)
                Demo.content [Demo.entry 1 false true [x00]] initial).1).
  pose (s2 := (verifyEvidence Demo.X Demo.trusted true false (Demo.forged 2)
                 Demo.rekor
                 (did s [WValidateEntry Demo.X (Demo.forged 2);
                         WLookup Demo.X "6b"])).1).
  apply (Hfail (Demo.entity [Demo.entry 1 false true [x00]; Demo.forged 2])
           [Demo.entry 1 false true [x00]] [] s Demo.rekor s2 1).
  - repeat split; try (vm_compute; reflexivity). vm_compute. lia.
  - reflexivity.
  - vm_compute. reflexivity.
  - vm_compute. reflexivity.
  - vm_compute. reflexivity.
Defined.

(** ** Order of the entries *)

(** C9: for an entry list that passes the entry-count and duplicate
    checks, presenting the entries in another order changes neither
    whether the operation succeeds nor, when it does, the timestamps it
    returns, up to their order.  The collaborators are functions of
    their arguments here: a remote log answers a query the same way
    each time. *)
Theorem C9_order_of_entries X entity entity' trustedMaterial logThreshold
    trustIntegratedTime online entries entries' :
  TlogEntries entity = Ok entries →
  TlogEntries entity' = Ok entries' →
  GetSignatureContent entity' = GetSignatureContent entity →
  GetVerificationContent entity' = GetVerificationContent entity →
  passesAdmission entries →
  entries ≡ₚ entries' →
  match (VerifyArtifactTransparencyLog X entity trustedMaterial logThreshold
           trustIntegratedTime online).2,
        (VerifyArtifactTransparencyLog X entity' trustedMaterial logThreshold
           trustIntegratedTime online).2 with
  | Ok ts, Ok ts' => ts ≡ₚ ts'
  | Err _, Err _ => True
  | _, _ => False
  end.
Proof.
  intros He He' Hs' Hv' Hadm Hp.
  pose proof (passesAdmission_Permutation entries entries' Hp Hadm) as Hadm'.
  destruct Hadm as [Hlen Hdup], Hadm' as [Hlen' Hdup'].
  unfold VerifyArtifactTransparencyLog.
  rewrite He, He', Hs', Hv', Hdup, Hdup', !bool_decide_eq_false_2 by lia.
  destruct (GetSignatureContent entity) as [sc|]; [|done].
  destruct (GetVerificationContent entity) as [vc|]; [|done].
  pose proof (loop_None X trustedMaterial trustIntegratedTime online
                (Signature sc) vc entries initial) as Hn.
  pose proof (loop_None X trustedMaterial trustIntegratedTime online
                (Signature sc) vc entries' initial) as Hn'.
  pose proof (loop_ok X trustedMaterial trustIntegratedTime online
                (Signature sc) vc entries initial) as Hok.
  pose proof (loop_ok X trustedMaterial trustIntegratedTime online
                (Signature sc) vc entries' initial) as Hok'.
  assert (Forall (λ e, ∀ err,
                    (loopBody X trustedMaterial trustIntegratedTime online
                       (Signature sc) vc e initial).2 ≠ Return err) entries
          ↔ Forall (λ e, ∀ err,
                      (loopBody X trustedMaterial trustIntegratedTime online
                         (Signature sc) vc e initial).2 ≠ Return err) entries')
    as HF by (by rewrite Hp).
  assert (length (filter (λ e, counts X trustedMaterial trustIntegratedTime online
                                 (Signature sc) vc e = true) entries)
          = length (filter (λ e, counts X trustedMaterial trustIntegratedTime online
                                   (Signature sc) vc e = true) entries'))
    as HL by (by rewrite Hp).
  assert (entries ≫= stamps X trustedMaterial trustIntegratedTime online
                       (Signature sc) vc
          ≡ₚ entries' ≫= stamps X trustedMaterial trustIntegratedTime online
                          (Signature sc) vc)
    as HT by (by rewrite Hp).
  destruct (rangeEntries _ _ _ _ _ _ entries initial) as [s [err|]];
    destruct (rangeEntries _ _ _ _ _ _ entries' initial) as [s' [err'|]];
    simpl in *; try done.
  - by pose proof (proj2 Hn (proj2 HF (proj1 Hn' eq_refl))).
  - by pose proof (proj2 Hn' (proj1 HF (proj1 Hn eq_refl))).
  - destruct (Hok eq_refl) as [Hc Ht], (Hok' eq_refl) as [Hc' Ht'].
    rewrite Hc, Hc', Ht, Ht', HL.
    by case_bool_decide.
Qed.

Lemma C9_order_of_entries_witness :
  match (VerifyArtifactTransparencyLog Demo.X
           (Demo.entity [Demo.entry 1 false true [x00]; Demo.entry 2 true false [x00];
                         Demo.stranger 3])
           Demo.trusted 2 true false).2,
        (VerifyArtifactTransparencyLog Demo.X
           (Demo.entity [Demo.stranger 3; Demo.entry 2 true false [x00];
                         Demo.entry 1 false true [x00]])
           Demo.trusted 2 true false).2 with
  | Ok ts, Ok ts' => ts ≡ₚ ts'
  | Err _, Err _ => True
  | _, _ => False
  end.
Proof.
  apply (C9_order_of_entries Demo.X _ _ Demo.trusted 2 true false
           [Demo.entry 1 false true [x00]; Demo.entry 2 true false [x00];
            Demo.stranger 3]
           [Demo.stranger 3; Demo.entry 2 true false [x00];
            Demo.entry 1 false true [x00]]).
  - reflexivity.
  - reflexivity.
  - reflexivity.
  - reflexivity.
  - split; [vm_compute; lia | reflexivity].
  - etrans; [apply Permutation_swap|].
    etrans; [apply Permutation_skip, Permutation_swap|].
    apply Permutation_swap.
Defined.

(** * Further properties of the operation *)

Section Outcomes.

Context (X : Collaborators) (trustedMaterial : root.TrustedMaterial).
Context (trustIntegratedTime online : bool).
Context (entitySignature : list byte) (verificationContent : VerificationContent).

Implicit Types (s : St X) (e : tlog.Entry) (entries : list tlog.Entry).

Lemma rangePayload_timestamps payload verifier s :
  verifiedTimestamps (rangePayload X payload verifier s).1 = verifiedTimestamps s.
Proof.
  revert s. induction payload as [|v rest IH]; intros s; simpl; [done|].
  unfold mbind, M_bind; simpl.
  destruct (VerifyLogEntry X v verifier); simpl; [done|].
  by rewrite IH.
Qed.

(** What the evidence check leaves behind: on [continue] the promise
    failed its SET check offline and nothing was added; on falling
    through, one timestamp was added exactly when the integrated time is
    trusted and the entry was checked online or carries a promise. *)
Lemma evidence_effect e l s :
  let r := verifyEvidence X trustedMaterial trustIntegratedTime online e l s in
  match r.2 with
  | Return _ => True
  | Continue =>
      verifiedTimestamps r.1 = verifiedTimestamps s
      ∧ online = false ∧ tlog.HasInclusionPromise e = true
      ∧ is_Some (VerifySET X e (root.RekorLogs trustedMaterial))
  | Next _ =>
      verifiedTimestamps r.1 =
        verifiedTimestamps s ++
          (if trustIntegratedTime && (online || tlog.HasInclusionPromise e)
           then [{| Time := tlog.IntegratedTime e; URI := root.BaseURL l |}]
           else [])
      ∧ (online = true ∨ tlog.HasInclusionPromise e = false
         ∨ VerifySET X e (root.RekorLogs trustedMaterial) = None)
  end.
Proof.
  unfold verifyEvidence. destruct online; simpl.
  - unfold verifyOnline, mbind, M_bind; simpl.
    destruct (RekorClientGetter X _) as [client|]; simpl; [|done].
    destruct (getVerifier X _ _) as [verifier|]; simpl; [|done].
    destruct (GetLogEntryByIndex X _ _) as [payload|]; simpl; [|done].
    destruct (bool_decide _); simpl; [done|].
    match goal with |- context [rangePayload X payload verifier ?s0] =>
      pose proof (rangePayload_timestamps payload verifier s0) as Ht;
      pose proof (neverContinues_rangePayload X payload verifier s0) as Hn;
      destruct (rangePayload X payload verifier s0) as [s1 [[]| |err]] end;
      simpl in *; try done.
    + destruct trustIntegratedTime; simpl; rewrite Ht, ?app_nil_r; auto.
  - unfold verifyOffline, mbind, M_bind; simpl.
    destruct (tlog.HasInclusionPromise e) eqn:Hpromise,
             (tlog.HasInclusionProof e) eqn:Hproof; simpl; try done.
    + destruct (VerifySET X e _) as [err|] eqn:Hset; simpl; [by eauto|].
      destruct trustIntegratedTime; simpl;
        destruct (getVerifier X _ _) as [verifier|]; simpl; try done;
        destruct (VerifyInclusion X e verifier); simpl; rewrite ?app_nil_r; auto.
    + destruct (VerifySET X e _) as [err|] eqn:Hset; simpl; [by eauto|].
      destruct trustIntegratedTime; simpl; rewrite ?app_nil_r; auto.
    + destruct (getVerifier X _ _) as [verifier|]; simpl; try done.
      destruct (VerifyInclusion X e verifier); simpl; try done.
      rewrite andb_false_r, app_nil_r. auto.
Qed.

(** What one iteration leaves behind when it does not return. *)
Lemma body_effect e s :
  let r := loopBody X trustedMaterial trustIntegratedTime online entitySignature
             verificationContent e s in
  let logs := root.RekorLogs trustedMaterial in
  match r.2 with
  | Return _ => True
  | Continue =>
      verifiedTimestamps r.1 = verifiedTimestamps s
      ∧ (logs !! hex.EncodeToString (tlog.LogKeyID e) = None
         ∨ (online = false ∧ tlog.HasInclusionPromise e = true
            ∧ is_Some (VerifySET X e logs)))
  | Next _ =>
      ∃ l, logs !! hex.EncodeToString (tlog.LogKeyID e) = Some l
           ∧ (online = true ∨ tlog.HasInclusionPromise e = false
              ∨ VerifySET X e logs = None)
           ∧ verifiedTimestamps r.1 =
               verifiedTimestamps s ++
                 (if trustIntegratedTime && (online || tlog.HasInclusionPromise e)
                  then [{| Time := tlog.IntegratedTime e; URI := root.BaseURL l |}]
                  else [])
  end.
Proof.
  simpl. destruct (ValidateEntry X e) as [err|] eqn:Hv.
  { by rewrite (body_invalid _ _ _ _ _ _ e s err Hv). }
  destruct (root.RekorLogs trustedMaterial !! hex.EncodeToString (tlog.LogKeyID e))
    as [l|] eqn:Hl.
  2: { rewrite (body_unrecognized _ _ _ _ _ _ e s Hv Hl); simpl. auto. }
  rewrite (body_recognized _ _ _ _ _ _ e s l Hv Hl).
  pose proof (evidence_effect e l
                (did (did s [WValidateEntry X e])
                   [WLookup X (hex.EncodeToString (tlog.LogKeyID e))])) as He.
  simpl in He.
  destruct (verifyEvidence _ _ _ _ _ _ _) as [s2 [[]| |err]]; simpl in *.
  - rewrite consistency_cases; simpl.
    destruct (bytes_Equal _ _); simpl; [|done].
    destruct (CompareKey _ _ _); simpl; [|done].
    destruct (ValidAtTime _ _ _); simpl; [|done].
    destruct He as [-> Hset]. by exists l.
  - destruct He as (-> & Ho & Hp & Hs). split; [done|]. by right.
  - done.
Qed.

(** The loop's variables after a loop that returned no error. *)
Lemma loop_effect entries s s' :
  rangeEntries X trustedMaterial trustIntegratedTime online entitySignature
    verificationContent entries s = (s', None) →
  logEntriesVerified s' =
    logEntriesVerified s
    + Z.of_nat (length (filter
        (λ e, is_Some (recognized trustedMaterial e)
              ∧ skippedBySET X trustedMaterial online e = false) entries))
  ∧ verifiedTimestamps s' =
      verifiedTimestamps s ++
        (entries ≫= λ e,
           match recognized trustedMaterial e with
           | Some l =>
               if trustIntegratedTime && (online || tlog.HasInclusionPromise e)
                  && negb (skippedBySET X trustedMaterial online e)
               then [{| Time := tlog.IntegratedTime e; URI := root.BaseURL l |}]
               else []
           | None => []
           end).
Proof.
  revert s. induction entries as [|e rest IH]; intros s; simpl.
  { intros [= <-]. rewrite app_nil_r. split; [lia | done]. }
  pose proof (body_effect e s) as He. pose proof (body_count X trustedMaterial trustIntegratedTime online
                entitySignature verificationContent e s) as Hc.
  simpl in He. rewrite filter_cons. unfold recognized, skippedBySET in *.
  destruct (loopBody _ _ _ _ _ _ e s) as [s1 [[]| |err]]; simpl in *; [| |done].
  - destruct He as (l & Hl & Hset & Ht). intros Hloop.
    destruct (IH _ Hloop) as [-> ->]. rewrite Hl, Hc, Ht, <-app_assoc.
    assert (negb online && tlog.HasInclusionPromise e
            && match VerifySET X e (root.RekorLogs trustedMaterial) with
               | Some _ => true
               | None => false
               end = false) as Hskip.
    { destruct Hset as [ -> | [ -> | -> ] ]; simpl; by rewrite ?andb_false_r. }
    rewrite Hskip, andb_true_r, decide_True by (split; [by eexists | done]).
    simpl length. split; [lia | done].
  - destruct He as (Ht & Hwhy). intros Hloop.
    destruct (IH _ Hloop) as [-> ->]. rewrite Hc, Ht.
    destruct Hwhy as [Hl | ( -> & Hp & [err Hset])].
    + rewrite Hl, decide_False by (by intros [[? ?] _]). split; [lia | done].
    + rewrite Hp, Hset; simpl. rewrite andb_false_r.
      rewrite decide_False by (by intros [_ ?]).
      split; [lia|]. by destruct (root.RekorLogs trustedMaterial !! _).
Qed.

End Outcomes.

(** A successful run went through the loop and passed the threshold. *)
Lemma Verify_Ok_inv X entity trustedMaterial logThreshold trustIntegratedTime
    online ts :
  (VerifyArtifactTransparencyLog X entity trustedMaterial logThreshold
     trustIntegratedTime online).2 = Ok ts →
  ∃ entries sc vc s,
    TlogEntries entity = Ok entries
    ∧ passesAdmission entries
    ∧ GetSignatureContent entity = Ok sc
    ∧ GetVerificationContent entity = Ok vc
    ∧ rangeEntries X trustedMaterial trustIntegratedTime online (Signature sc) vc
        entries initial = (s, None)
    ∧ logThreshold ≤ logEntriesVerified s
    ∧ ts = verifiedTimestamps s.
Proof.
  unfold VerifyArtifactTransparencyLog.
  destruct (TlogEntries entity) as [entries|]; [|done].
  case_bool_decide as Hlen; [done|].
  destruct (hasDuplicates entries) eqn:Hdup; [done|].
  destruct (GetSignatureContent entity) as [sc|]; [|done].
  destruct (GetVerificationContent entity) as [vc|]; [|done].
  destruct (rangeEntries _ _ _ _ _ _ entries initial) as [s [err|]] eqn:Hloop;
    [done|].
  case_bool_decide as Hth; [done|]. simpl. intros [= <-].
  exists entries, sc, vc, s. repeat split; try done; lia.
Qed.

(** ** What a successful run returns *)

(** X1: the timestamps of a successful run are, in the order of the
    entries, one per entry of a recognized log that was checked online
    or carries a promise that passed its SET check, and none when the
    integrated time is not trusted; each holds the entry's integrated
    time and its log's base URL. *)
Theorem returned_timestamps X entity trustedMaterial logThreshold
    trustIntegratedTime online entries ts :
  TlogEntries entity = Ok entries →
  (VerifyArtifactTransparencyLog X entity trustedMaterial logThreshold
     trustIntegratedTime online).2 = Ok ts →
  ts = entries ≫= λ e,
         match recognized trustedMaterial e with
         | Some l =>
             if trustIntegratedTime && (online || tlog.HasInclusionPromise e)
                && negb (skippedBySET X trustedMaterial online e)
             then [{| Time := tlog.IntegratedTime e; URI := root.BaseURL l |}]
             else []
         | None => []
         end.
Proof.
  intros He Hok.
  apply Verify_Ok_inv in Hok
    as (entries' & sc & vc & s & He' & _ & _ & _ & Hloop & _ & ->).
  rewrite He in He'. injection He' as <-.
  by destruct (loop_effect X trustedMaterial trustIntegratedTime online
                 (Signature sc) vc entries initial s Hloop) as [_ ->].
Qed.

Lemma returned_timestamps_witness :
  [{| Time := 150; URI := "https://rekor.example" |}]
  = [Demo.entry 1 false true [x00]; Demo.entry 2 true false [x00];
     Demo.stranger 3; Demo.entry 4 true true [x01]] ≫= λ e,
      match recognized Demo.trusted e with
      | Some l =>
          if true && (false || tlog.HasInclusionPromise e)
             && negb (skippedBySET Demo.X Demo.trusted false e)
          then [{| Time := tlog.IntegratedTime e; URI := root.BaseURL l |}]
          else []
      | None => []
      end.
Proof.
  apply (returned_timestamps Demo.X
           (Demo.entity [Demo.entry 1 false true [x00]; Demo.entry 2 true false [x00];
                         Demo.stranger 3; Demo.entry 4 true true [x01]])
           Demo.trusted 2 true false).
  - reflexivity.
  - vm_compute. reflexivity.
Defined.

(** X2: when no iteration returns an error, the count is the number of
    entries of a recognized log that were not skipped for a failed SET
    check, and the operation succeeds exactly when the threshold is at
    most that number. *)
Theorem verified_count X entity trustedMaterial logThreshold trustIntegratedTime
    online entries sc vc s :
  TlogEntries entity = Ok entries →
  passesAdmission entries →
  GetSignatureContent entity = Ok sc →
  GetVerificationContent entity = Ok vc →
  rangeEntries X trustedMaterial trustIntegratedTime online (Signature sc) vc
    entries initial = (s, None) →
  let n := Z.of_nat (length (filter
             (λ e, is_Some (recognized trustedMaterial e)
                   ∧ skippedBySET X trustedMaterial online e = false) entries)) in
  logEntriesVerified s = n
  ∧ (VerifyArtifactTransparencyLog X entity trustedMaterial logThreshold
       trustIntegratedTime online).2
    = if bool_decide (n < logThreshold)
      then Err (ErrNotEnough n logThreshold)
      else Ok (verifiedTimestamps s).
Proof.
  intros He Hadm Hs Hv Hloop n.
  destruct (loop_effect X trustedMaterial trustIntegratedTime online
              (Signature sc) vc entries initial s Hloop) as [Hc _].
  simpl in Hc. fold n in Hc. rewrite Z.add_0_l in Hc. split; [done|].
  rewrite (Verify_loop X trustedMaterial trustIntegratedTime online
             entity entries sc vc logThreshold He Hadm Hs Hv), Hloop, Hc.
  by case_bool_decide.
Qed.

Lemma verified_count_witness :
  (VerifyArtifactTransparencyLog Demo.X
     (Demo.entity [Demo.entry 1 false true [x00]; Demo.stranger 3;
                   Demo.entry 4 true true [x01]]) Demo.trusted 2 true false).2
  = Err (ErrNotEnough 1 2).
Proof.
  pose (entries := [Demo.entry 1 false true [x00]; Demo.stranger 3;
                    Demo.entry 4 true true [x01]]).
  assert (passesAdmission entries) as Hadm.
  { split; [vm_compute; lia | reflexivity]. }
  destruct (verified_count Demo.X (Demo.entity entries) Demo.trusted 2 true false
              entries Demo.signed Demo.content
              (rangeEntries Demo.X Demo.trusted true false (Signature Demo.signed)
                 Demo.content entries initial).1 eq_refl Hadm eq_refl eq_refl)
    as [_ Hr].
  - vm_compute. reflexivity.
  - etrans; [exact Hr|]. vm_compute. reflexivity.
Defined.

Lemma Verify_Ok_bounds X entity trustedMaterial logThreshold trustIntegratedTime
    online entries ts :
  TlogEntries entity = Ok entries →
  (VerifyArtifactTransparencyLog X entity trustedMaterial logThreshold
     trustIntegratedTime online).2 = Ok ts →
  (length entries ≤ maxAllowedTlogEntries)%nat
  ∧ logThreshold ≤ Z.of_nat (length entries).
Proof.
  intros He Hok.
  apply Verify_Ok_inv in Hok
    as (entries' & sc & vc & s & He' & [Hlen _] & _ & _ & Hloop & Hth & _).
  rewrite He in He'. injection He' as <-.
  pose proof (loop_count_bounds X trustedMaterial trustIntegratedTime online
                (Signature sc) vc entries initial) as Hb.
  rewrite Hloop in Hb; simpl in Hb. split; [done | lia].
Qed.

(** X3: a successful run had at most 32 entries, returns at most one
    timestamp per entry, and its threshold is at most the number of
    entries. *)
Theorem success_bounds X entity trustedMaterial logThreshold trustIntegratedTime
    online entries ts :
  TlogEntries entity = Ok entries →
  (VerifyArtifactTransparencyLog X entity trustedMaterial logThreshold
     trustIntegratedTime online).2 = Ok ts →
  (length ts ≤ length entries ≤ maxAllowedTlogEntries)%nat
  ∧ logThreshold ≤ Z.of_nat (length entries).
Proof.
  intros He Hok.
  destruct (Verify_Ok_bounds X entity trustedMaterial logThreshold
              trustIntegratedTime online entries ts He Hok) as [Hlen Hth].
  split; [split; [|done] | done].
  apply Verify_Ok_inv in Hok
    as (entries' & sc & vc & s & He' & _ & _ & _ & Hloop & _ & ->).
  rewrite He in He'. injection He' as <-.
  destruct (loop_effect X trustedMaterial trustIntegratedTime online
              (Signature sc) vc entries initial s Hloop) as [_ ->].
  simpl. clear. induction entries as [|e rest IH]; [done|].
  rewrite bind_cons, length_app.
  destruct (recognized trustedMaterial e); [case_match|]; simpl length; lia.
Qed.

Lemma success_bounds_witness :
  (length [{| Time := 150; URI := "https://rekor.example" |}] ≤ 2 ≤ 32)%nat
  ∧ 1 ≤ 2.
Proof.
  apply (success_bounds Demo.X
           (Demo.entity [Demo.entry 1 false true [x00]; Demo.entry 2 true false [x00]])
           Demo.trusted 1 true false
           [Demo.entry 1 false true [x00]; Demo.entry 2 true false [x00]]).
  - reflexivity.
  - vm_compute. reflexivity.
Defined.

(** X4: a threshold above 32 is never met: whatever the entity, the
    trust root and the mode, the operation returns an error. *)
Theorem threshold_above_limit_fails X entity trustedMaterial logThreshold
    trustIntegratedTime online :
  Z.of_nat maxAllowedTlogEntries < logThreshold →
  is_Err (VerifyArtifactTransparencyLog X entity trustedMaterial logThreshold
            trustIntegratedTime online).2.
Proof.
  intros Hth.
  destruct (VerifyArtifactTransparencyLog _ _ _ _ _ _).2 as [ts|err] eqn:Hr;
    [|done].
  destruct (Verify_Ok_inv _ _ _ _ _ _ _ Hr)
    as (entries & _ & _ & _ & He & _).
  destruct (Verify_Ok_bounds X entity trustedMaterial logThreshold
              trustIntegratedTime online entries ts He Hr) as [Hlen Hle].
  lia.
Qed.

Lemma threshold_above_limit_fails_witness :
  is_Err (VerifyArtifactTransparencyLog Demo.X
            (Demo.entity [Demo.entry 1 false true [x00]]) Demo.trusted 33 true false).2.
Proof.
  apply (threshold_above_limit_fails Demo.X
           (Demo.entity [Demo.entry 1 false true [x00]]) Demo.trusted 33 true false).
  vm_compute. reflexivity.
Defined.

(** ** Errors of the collaborators *)

(** An entry whose iteration returns [err] from any state makes the
    operation fail, and [err] is the result when the operation gets to
    the entry. *)
Lemma fatal_entry X trustedMaterial trustIntegratedTime online e err :
  (∀ entitySignature verificationContent s, ∃ s',
     loopBody X trustedMaterial trustIntegratedTime online entitySignature
       verificationContent e s = (s', Return err)) →
  (∀ entity entries logThreshold,
     TlogEntries entity = Ok entries → e ∈ entries →
     is_Err (VerifyArtifactTransparencyLog X entity trustedMaterial logThreshold
               trustIntegratedTime online).2)
  ∧ (∀ entity sc vc pre post s logThreshold,
       reaches X entity trustedMaterial trustIntegratedTime online sc vc pre e post s →
       (VerifyArtifactTransparencyLog X entity trustedMaterial logThreshold
          trustIntegratedTime online).2 = Err err).
Proof.
  intros Hbody. split.
  - intros entity entries logThreshold He Hin.
    apply (Verify_abort X trustedMaterial trustIntegratedTime online
             entity entries e logThreshold He Hin).
    intros sc vc. destruct (Hbody (Signature sc) vc initial) as [s' Hb].
    exists err. unfold outcome. by rewrite Hb.
  - intros entity sc vc pre post s logThreshold Hr.
    destruct (Hbody (Signature sc) vc s) as [s' Hb].
    by rewrite (Verify_reaches_return X trustedMaterial trustIntegratedTime online
                  entity sc vc pre e post s _ _ logThreshold Hr Hb).
Qed.

(** X5: an entry that fails structural validation is fatal whether or
    not its log is recognized: validation comes before the lookup, so
    the operation fails whenever such an entry is in the list, and
    returns the validation error when it gets to the entry. *)
Theorem malformed_entry_fatal X trustedMaterial trustIntegratedTime online e err :
  ValidateEntry X e = Some err →
  (∀ entity entries logThreshold,
     TlogEntries entity = Ok entries → e ∈ entries →
     is_Err (VerifyArtifactTransparencyLog X entity trustedMaterial logThreshold
               trustIntegratedTime online).2)
  ∧ (∀ entity sc vc pre post s logThreshold,
       reaches X entity trustedMaterial trustIntegratedTime online sc vc pre e post s →
       (VerifyArtifactTransparencyLog X entity trustedMaterial logThreshold
          trustIntegratedTime online).2 = Err err).
Proof.
  intros Hv. apply fatal_entry. intros sig vc s. eexists.
  by apply body_invalid.
Qed.

Lemma malformed_entry_fatal_witness :
  (VerifyArtifactTransparencyLog Demo.X
     (Demo.entity [Demo.entry 1 false true [x00];
                   {| tlog.LogKeyID := "z"; tlog.LogIndex := 9;
                      tlog.IntegratedTime := 150; tlog.Signature := [x53];
                      tlog.PublicKey := [x0a]; tlog.HasInclusionPromise := false;
                      tlog.HasInclusionProof := true; tlog.Body := [] |}])
     Demo.trusted 1 true false).2 = Err (Upstream "tlog entry has no body").
Proof.
  apply (malformed_entry_fatal Demo.X Demo.trusted true false
           {| tlog.LogKeyID := "z"; tlog.LogIndex := 9;
              tlog.IntegratedTime := 150; tlog.Signature := [x53];
              tlog.PublicKey := [x0a]; tlog.HasInclusionPromise := false;
              tlog.HasInclusionProof := true; tlog.Body := [] |}
           (Upstream "tlog entry has no body") eq_refl)
    with (sc := Demo.signed) (vc := Demo.content)
         (pre := [Demo.entry 1 false true [x00]]) (post := [])
         (s := (rangeEntries Demo.X Demo.trusted true false (Signature Demo.signed)
                  Demo.content [Demo.entry 1 false true [x00]] initial).1).
  repeat split; try (vm_compute; reflexivity). vm_compute. lia.
Defined.

(** X6: offline, for a well-formed entry of a recognized log that
    carries an inclusion proof and is not skipped for its SET check, a
    verifier that cannot be loaded or a proof that does not verify is
    fatal: the operation fails, with that error when it gets to the
    entry. *)
Theorem inclusion_proof_failure_fatal X trustedMaterial trustIntegratedTime e l err :
  ValidateEntry X e = None →
  recognized trustedMaterial e = Some l →
  tlog.HasInclusionProof e = true →
  skippedBySET X trustedMaterial false e = false →
  match getVerifier X (root.PublicKey l) (root.SignatureHashFunc l) with
  | Err err' => err' = err
  | Ok verifier => VerifyInclusion X e verifier = Some err
  end →
  (∀ entity entries logThreshold,
     TlogEntries entity = Ok entries → e ∈ entries →
     is_Err (VerifyArtifactTransparencyLog X entity trustedMaterial logThreshold
               trustIntegratedTime false).2)
  ∧ (∀ entity sc vc pre post s logThreshold,
       reaches X entity trustedMaterial trustIntegratedTime false sc vc pre e post s →
       (VerifyArtifactTransparencyLog X entity trustedMaterial logThreshold
          trustIntegratedTime false).2 = Err err).
Proof.
  intros Hv Hl Hproof Hskip Hfail. apply fatal_entry. intros sig vc s.
  rewrite (body_recognized _ _ _ _ _ _ e s l Hv Hl).
  unfold skippedBySET in Hskip. simpl in Hskip.
  unfold verifyEvidence, verifyOffline, mbind, M_bind; simpl.
  rewrite Hproof, andb_false_r; simpl.
  destruct (tlog.HasInclusionPromise e); simpl in *.
  - destruct (VerifySET X e _); [done|].
    destruct trustIntegratedTime; simpl;
      destruct (getVerifier X _ _) as [verifier|]; simpl;
      rewrite ?Hfail; subst; by eexists.
  - destruct (getVerifier X _ _) as [verifier|]; simpl;
      rewrite ?Hfail; subst; by eexists.
Qed.

Lemma inclusion_proof_failure_fatal_witness :
  (VerifyArtifactTransparencyLog Demo.X
     (Demo.entity [Demo.entry 1 true true [x02]]) Demo.trusted 0 true false).2
  = Err (Upstream "unable to verify inclusion proof").
Proof.
  apply (inclusion_proof_failure_fatal Demo.X Demo.trusted true
           (Demo.entry 1 true true [x02]) Demo.rekor
           (Upstream "unable to verify inclusion proof"))
    with (sc := Demo.signed) (vc := Demo.content) (pre := []) (post := [])
         (s := initial).
  - reflexivity.
  - vm_compute. reflexivity.
  - reflexivity.
  - vm_compute. reflexivity.
  - vm_compute. reflexivity.
  - repeat split; try (vm_compute; reflexivity). vm_compute. lia.
Defined.

(** X7: online, for a well-formed entry of a recognized log, an error
    from the client getter, from loading the verifier or from the remote
    query is fatal: the operation fails, with that error when it gets to
    the entry. *)
Theorem online_errors_fatal X trustedMaterial trustIntegratedTime e l err :
  ValidateEntry X e = None →
  recognized trustedMaterial e = Some l →
  match RekorClientGetter X (root.BaseURL l) with
  | Err err' => err' = err
  | Ok client =>
      match getVerifier X (root.PublicKey l) (root.SignatureHashFunc l) with
      | Err err' => err' = err
      | Ok _ => GetLogEntryByIndex X client (tlog.LogIndex e) = Err err
      end
  end →
  (∀ entity entries logThreshold,
     TlogEntries entity = Ok entries → e ∈ entries →
     is_Err (VerifyArtifactTransparencyLog X entity trustedMaterial logThreshold
               trustIntegratedTime true).2)
  ∧ (∀ entity sc vc pre post s logThreshold,
       reaches X entity trustedMaterial trustIntegratedTime true sc vc pre e post s →
       (VerifyArtifactTransparencyLog X entity trustedMaterial logThreshold
          trustIntegratedTime true).2 = Err err).
Proof.
  intros Hv Hl Hfail. apply fatal_entry. intros sig vc s.
  rewrite (body_recognized _ _ _ _ _ _ e s l Hv Hl).
  unfold verifyEvidence, verifyOnline, mbind, M_bind; simpl.
  destruct (RekorClientGetter X _) as [client|]; simpl; [|subst; by eexists].
  destruct (getVerifier X _ _) as [verifier|]; simpl; [|subst; by eexists].
  rewrite Hfail. by eexists.
Qed.

Lemma online_errors_fatal_witness :
  (VerifyArtifactTransparencyLog Demo.X
     (Demo.entity [Demo.entry 1 false true [x00]])
     {| root.RekorLogs :=
          {[ "6b" := {| root.BaseURL := ""; root.PublicKey := [x04];
                        root.SignatureHashFunc := 5 |} ]} |}
     0 true true).2
  = Err (Upstream "empty url").
Proof.
  apply (online_errors_fatal Demo.X
           {| root.RekorLogs :=
                {[ "6b" := {| root.BaseURL := ""; root.PublicKey := [x04];
                              root.SignatureHashFunc := 5 |} ]} |}
           true (Demo.entry 1 false true [x00])
           {| root.BaseURL := ""; root.PublicKey := [x04];
              root.SignatureHashFunc := 5 |}
           (Upstream "empty url"))
    with (sc := Demo.signed) (vc := Demo.content) (pre := []) (post := [])
         (s := initial).
  - reflexivity.
  - vm_compute. reflexivity.
  - reflexivity.
  - repeat split; try (vm_compute; reflexivity). vm_compute. lia.
Defined.

(** ** Early exit and the threshold *)

(** X8: once an iteration returns an error, the entries after it are
    not examined: the result and the work done are the same whatever
    follows the failing entry. *)
Theorem later_entries_not_examined X entity entity' trustedMaterial logThreshold
    trustIntegratedTime online sc vc pre e post post' s s' err :
  reaches X entity trustedMaterial trustIntegratedTime online sc vc pre e post s →
  reaches X entity' trustedMaterial trustIntegratedTime online sc vc pre e post' s →
  loopBody X trustedMaterial trustIntegratedTime online (Signature sc) vc e s
    = (s', Return err) →
  VerifyArtifactTransparencyLog X entity trustedMaterial logThreshold
    trustIntegratedTime online = (work s', Err err)
  ∧ VerifyArtifactTransparencyLog X entity' trustedMaterial logThreshold
      trustIntegratedTime online = (work s', Err err).
Proof.
  intros Hr Hr' Hb. split.
  - apply (Verify_reaches_return X trustedMaterial trustIntegratedTime online
             entity sc vc pre e post s s' err logThreshold Hr Hb).
  - apply (Verify_reaches_return X trustedMaterial trustIntegratedTime online
             entity' sc vc pre e post' s s' err logThreshold Hr' Hb).
Qed.

Lemma later_entries_not_examined_witness :
  VerifyArtifactTransparencyLog Demo.X
    (Demo.entity [Demo.entry 1 false false [x00]; Demo.entry 2 false true [x00]])
    Demo.trusted 1 true false
  = VerifyArtifactTransparencyLog Demo.X
      (Demo.entity [Demo.entry 1 false false [x00]; Demo.forged 3; Demo.stranger 4])
      Demo.trusted 1 true false.
Proof.
  destruct (later_entries_not_examined Demo.X
              (Demo.entity [Demo.entry 1 false false [x00]; Demo.entry 2 false true [x00]])
              (Demo.entity [Demo.entry 1 false false [x00]; Demo.forged 3;
                            Demo.stranger 4])
              Demo.trusted 1 true false Demo.signed Demo.content []
              (Demo.entry 1 false false [x00])
              [Demo.entry 2 false true [x00]] [Demo.forged 3; Demo.stranger 4]
              initial
              (loopBody Demo.X Demo.trusted true false (Signature Demo.signed)
                 Demo.content (Demo.entry 1 false false [x00]) initial).1
              ErrMissingInclusion) as [H1 H2].
  - repeat split; try (vm_compute; reflexivity). vm_compute. lia.
  - repeat split; try (vm_compute; reflexivity). vm_compute. lia.
  - vm_compute. reflexivity.
  - etrans; [exact H1 | symmetry; exact H2].
Defined.

(** X9: lowering the threshold never turns a success into a failure: a
    run that succeeds with a threshold succeeds with every smaller one,
    with the same timestamps and the same work. *)
Theorem success_with_lower_threshold X entity trustedMaterial logThreshold
    logThreshold' trustIntegratedTime online w ts :
  VerifyArtifactTransparencyLog X entity trustedMaterial logThreshold
    trustIntegratedTime online = (w, Ok ts) →
  logThreshold' ≤ logThreshold →
  VerifyArtifactTransparencyLog X entity trustedMaterial logThreshold'
    trustIntegratedTime online = (w, Ok ts).
Proof.
  unfold VerifyArtifactTransparencyLog.
  destruct (TlogEntries entity) as [entries|]; [|done].
  destruct (bool_decide _); [done|].
  destruct (hasDuplicates entries); [done|].
  destruct (GetSignatureContent entity) as [sc|]; [|done].
  destruct (GetVerificationContent entity) as [vc|]; [|done].
  destruct (rangeEntries _ _ _ _ _ _ entries initial) as [s [err|]]; [done|].
  case_bool_decide as Hth; [done|]. intros Hok Hle.
  by rewrite bool_decide_eq_false_2 by lia.
Qed.

Lemma success_with_lower_threshold_witness :
  VerifyArtifactTransparencyLog Demo.X
    (Demo.entity [Demo.entry 1 true false [x00]; Demo.entry 2 true true [x00]])
    Demo.trusted (-5) true false
  = ((VerifyArtifactTransparencyLog Demo.X
        (Demo.entity [Demo.entry 1 true false [x00]; Demo.entry 2 true true [x00]])
        Demo.trusted 2 true false).1,
     Ok [{| Time := 150; URI := "https://rekor.example" |};
         {| Time := 150; URI := "https://rekor.example" |}]).
Proof.
  apply (success_with_lower_threshold Demo.X
           (Demo.entity [Demo.entry 1 true false [x00]; Demo.entry 2 true true [x00]])
           Demo.trusted 2 (-5) true false).
  - vm_compute. reflexivity.
  - lia.
Defined.

(** ** The duplicate scan *)

(** X10: the scan of lines 59-65 finds a duplicate exactly when some
    earlier position [i] and later position [j] hold entries with the
    same key id and the same log index; entries that differ in either
    are never reported, and the verdict does not depend on the order of
    the list. *)
Theorem duplicate_scan_exact entries :
  (hasDuplicates entries = true ↔
   ∃ i j a b, (i < j)%nat ∧ entries !! i = Some a ∧ entries !! j = Some b
              ∧ tlog.LogKeyID a = tlog.LogKeyID b
              ∧ tlog.LogIndex a = tlog.LogIndex b)
  ∧ (∀ entries', entries ≡ₚ entries' → hasDuplicates entries' = hasDuplicates entries).
Proof.
  split.
  - rewrite <-sharesIdentity_hasDuplicates. split.
    + intros (i & j & a & b & Hne & Ha & Hb & Hk & Hi).
      destruct (decide (i < j)%nat).
      * by exists i, j, a, b.
      * exists j, i, b, a. repeat split; try done. lia.
    + intros (i & j & a & b & Hlt & Ha & Hb & Hk & Hi).
      exists i, j, a, b. repeat split; try done. lia.
  - intros entries' Hp.
    destruct (hasDuplicates entries) eqn:Hd, (hasDuplicates entries') eqn:Hd';
      try done.
    + apply hasDuplicates_NoDup in Hd'. rewrite <-Hp in Hd'.
      apply hasDuplicates_NoDup in Hd'. congruence.
    + apply hasDuplicates_NoDup in Hd. rewrite Hp in Hd.
      apply hasDuplicates_NoDup in Hd. congruence.
Qed.

Lemma duplicate_scan_exact_witness :
  hasDuplicates [Demo.stranger 4; Demo.entry 1 false true [x00]; Demo.stranger 4]
  = hasDuplicates [Demo.entry 1 false true [x00]; Demo.stranger 4; Demo.stranger 4].
Proof.
  apply (duplicate_scan_exact
           [Demo.entry 1 false true [x00]; Demo.stranger 4; Demo.stranger 4]).
  apply Permutation_swap.
Defined.

(** ** The key of the trusted-log lookup *)

Lemma digit_inj n m : (n < 16)%N → (m < 16)%N → hex.digit n = hex.digit m → n = m.
Proof.
  intros Hn Hm Hd.
  assert (∀ i j, (i < 16)%nat → (j < 16)%nat →
                 hex.digit (N.of_nat i) = hex.digit (N.of_nat j) → i = j) as Hnat.
  { clear. intros i j Hi Hj.
    do 16 (destruct i as [|i];
           [do 16 (destruct j as [|j]; [by vm_compute|]); lia|]).
    lia. }
  rewrite <-(N2Nat.id n), <-(N2Nat.id m) in Hd.
  apply Hnat in Hd; lia.
Qed.

Lemma nibbles_inj a b :
  N.shiftr (N_of_ascii a) 4 = N.shiftr (N_of_ascii b) 4 →
  N.land (N_of_ascii a) 15 = N.land (N_of_ascii b) 15 →
  a = b.
Proof.
  intros Hhi Hlo.
  rewrite <-(ascii_N_embedding a), <-(ascii_N_embedding b). f_equal.
  change 15%N with (N.ones 4) in Hlo.
  rewrite !N.land_ones in Hlo. rewrite !N.shiftr_div_pow2 in Hhi.
  rewrite (N.div_mod' (N_of_ascii a) (2 ^ 4)), (N.div_mod' (N_of_ascii b) (2 ^ 4)).
  by rewrite Hhi, Hlo.
Qed.

Lemma nibbles_bounded a :
  (N.shiftr (N_of_ascii a) 4 < 16)%N ∧ (N.land (N_of_ascii a) 15 < 16)%N.
Proof.
  pose proof (N_ascii_bounded a) as Hb. split.
  - rewrite N.shiftr_div_pow2. apply N.Div0.div_lt_upper_bound.
    change (2 ^ 4 * 16)%N with 256%N. done.
  - change 15%N with (N.ones 4). rewrite N.land_ones.
    by apply N.mod_lt.
Qed.

(** X11: the lookup key determines the key id: [hex.EncodeToString]
    maps different key ids to different keys, so two entries are looked
    up under the same key of the trusted-log mapping only when their key
    ids are equal. *)
Theorem lookup_key_injective (keyID keyID' : string) :
  hex.EncodeToString keyID = hex.EncodeToString keyID' → keyID = keyID'.
Proof.
  revert keyID'. induction keyID as [|a rest IH]; intros [|b rest']; simpl;
    try done.
  intros [= Hhi Hlo Hrest].
  destruct (nibbles_bounded a) as [Ha1 Ha2], (nibbles_bounded b) as [Hb1 Hb2].
  apply digit_inj in Hhi; [|done..]. apply digit_inj in Hlo; [|done..].
  f_equal; [by apply nibbles_inj | by apply IH].
Qed.

Lemma lookup_key_injective_witness : "k"%string = "k"%string.
Proof. apply (lookup_key_injective "k" "k"). reflexivity. Defined.

(** X12: the lookup key is twice as long as the key id and made of the
    digits 0-9 and a-f only: a trusted-log mapping is consulted under
    lower-case hex keys and no others. *)
Theorem lookup_key_form (keyID : string) :
  String.length (hex.EncodeToString keyID) = (2 * String.length keyID)%nat
  ∧ Forall (λ c, c ∈ list_ascii_of_string hex.hextable)
           (list_ascii_of_string (hex.EncodeToString keyID)).
Proof.
  assert (∀ n, (n < 16)%N → hex.digit n ∈ list_ascii_of_string hex.hextable) as Hd.
  { intros n Hn. rewrite <-(N2Nat.id n).
    assert (N.to_nat n < 16)%nat as Hlt by lia. revert Hlt.
    generalize (N.to_nat n). clear. intros i Hi.
    do 16 (destruct i as [|i]; [vm_compute; set_solver|]). lia. }
  induction keyID as [|a rest [IHlen IHdig]]; simpl; [by split|].
  destruct (nibbles_bounded a) as [Ha1 Ha2].
  split; [lia|].
  constructor; [by apply Hd|]. constructor; [by apply Hd | done].
Qed.

(** ** What each mode does and does not do *)

Section Work.

Context (X : Collaborators) (P : Work X → Prop).

Lemma worksWithin_bind {A B} (m : M X A) (f : A → M X B) :
  worksWithin P m → (∀ a, worksWithin P (f a)) → worksWithin P (m ≫= f).
Proof.
  intros Hm Hf s Hs. unfold mbind, M_bind. specialize (Hm s Hs).
  destruct (m s) as [s1 [a| |err]]; simpl in *; try done.
  by apply Hf.
Qed.

Lemma worksWithin_ret {A} (a : A) : worksWithin P (mret a : M X A).
Proof. by intros s Hs. Qed.
Lemma worksWithin_fail {A} err : worksWithin P (fail X err : M X A).
Proof. by intros s Hs. Qed.
Lemma worksWithin_continue {A} : worksWithin P (continue X : M X A).
Proof. by intros s Hs. Qed.
Lemma worksWithin_appendTimestamp t : worksWithin P (appendTimestamp X t).
Proof. by intros s Hs. Qed.
Lemma worksWithin_incrVerified : worksWithin P (incrVerified X).
Proof. by intros s Hs. Qed.
Lemma worksWithin_step w : P w → worksWithin P (step X w).
Proof. intros Hw s Hs. simpl. apply Forall_app. split; [done|]. by constructor. Qed.

Lemma worksWithin_loop trustedMaterial trustIntegratedTime online
    entitySignature verificationContent entries :
  (∀ e, worksWithin P (loopBody X trustedMaterial trustIntegratedTime online
                         entitySignature verificationContent e)) →
  ∀ s, Forall P (work s) →
       Forall P (work (rangeEntries X trustedMaterial trustIntegratedTime online
                         entitySignature verificationContent entries s).1).
Proof.
  intros Hbody. induction entries as [|e rest IH]; intros s Hs; simpl; [done|].
  specialize (Hbody e s Hs).
  destruct (loopBody _ _ _ _ _ _ e s) as [s1 [[]| |err]]; simpl in *; auto.
Qed.

Lemma worksWithin_Verify entity trustedMaterial logThreshold trustIntegratedTime online :
  (∀ entitySignature verificationContent e,
     worksWithin P (loopBody X trustedMaterial trustIntegratedTime online
                      entitySignature verificationContent e)) →
  Forall P (VerifyArtifactTransparencyLog X entity trustedMaterial logThreshold
              trustIntegratedTime online).1.
Proof.
  intros Hbody. unfold VerifyArtifactTransparencyLog.
  destruct (TlogEntries entity) as [entries|]; [|done].
  destruct (bool_decide _); [done|].
  destruct (hasDuplicates entries); [done|].
  destruct (GetSignatureContent entity) as [sc|]; [|done].
  destruct (GetVerificationContent entity) as [vc|]; [|done].
  pose proof (worksWithin_loop trustedMaterial trustIntegratedTime online
                (Signature sc) vc entries (Hbody (Signature sc) vc) initial) as Hl.
  destruct (rangeEntries _ _ _ _ _ _ entries initial) as [s [err|]]; simpl in *.
  - by apply Hl.
  - case_bool_decide; simpl; by apply Hl.
Qed.

End Work.

Ltac solve_worksWithin :=
  repeat first
    [ apply worksWithin_ret | apply worksWithin_fail | apply worksWithin_continue
    | apply worksWithin_appendTimestamp | apply worksWithin_incrVerified
    | apply worksWithin_step; reflexivity
    | apply worksWithin_bind; [| intros ?]
    | case_match ].

(** X13: offline, the operation never goes to the remote log: no client
    is made, no entry is fetched and no fetched record is verified.
    Online, it never checks a SET or an inclusion proof held in the
    entry. *)
Theorem modes_keep_apart X entity trustedMaterial logThreshold trustIntegratedTime :
  Forall (λ w, remoteWork w = false)
    (VerifyArtifactTransparencyLog X entity trustedMaterial logThreshold
       trustIntegratedTime false).1
  ∧ Forall (λ w, localEvidenceWork w = false)
      (VerifyArtifactTransparencyLog X entity trustedMaterial logThreshold
         trustIntegratedTime true).1.
Proof.
  split; apply worksWithin_Verify; intros sig vc e.
  - unfold loopBody, verifyOffline, checkConsistency; simpl. solve_worksWithin.
  - assert (∀ payload verifier,
              worksWithin (λ w, localEvidenceWork w = false)
                (rangePayload X payload verifier)) as Hp.
    { intros payload verifier. induction payload as [|v rest IH]; simpl.
      - apply worksWithin_ret.
      - apply worksWithin_bind; [by apply worksWithin_step|]. intros _.
        destruct (VerifyLogEntry X v verifier); [apply worksWithin_fail | apply IH]. }
    unfold loopBody, verifyOnline, checkConsistency; simpl.
    repeat first
      [ apply Hp | apply worksWithin_ret | apply worksWithin_fail
      | apply worksWithin_continue | apply worksWithin_appendTimestamp
      | apply worksWithin_incrVerified
      | apply worksWithin_step; reflexivity
      | apply worksWithin_bind; [| intros ?]
      | case_match ].
Qed.

(** X14: offline, an iteration takes at most eight steps, so the whole
    operation takes at most eight per entry and 256 in all. *)
Theorem offline_work_bounded X entity trustedMaterial logThreshold
    trustIntegratedTime entries :
  TlogEntries entity = Ok entries →
  (length (VerifyArtifactTransparencyLog X entity trustedMaterial logThreshold
             trustIntegratedTime false).1 ≤ 8 * length entries)%nat
  ∧ (length (VerifyArtifactTransparencyLog X entity trustedMaterial logThreshold
               trustIntegratedTime false).1 ≤ 256)%nat.
Proof.
  intros He.
  assert (∀ sig vc e (s : St X),
            (length (work (loopBody X trustedMaterial trustIntegratedTime false
                             sig vc e s).1) ≤ length (work s) + 8)%nat) as Hbody.
  { intros sig vc e s.
    unfold loopBody, verifyOffline, checkConsistency, mbind, M_bind, mret, M_ret,
      fail, continue, step, appendTimestamp, incrVerified; simpl.
    repeat (case_match; simpl in *; simplify_eq/=); rewrite ?length_app; simpl; lia. }
  assert (∀ sig vc es (s : St X),
            (length (work (rangeEntries X trustedMaterial trustIntegratedTime false
                             sig vc es s).1) ≤ length (work s) + 8 * length es)%nat)
    as Hloop.
  { intros sig vc es. induction es as [|e rest IH]; intros s; simpl; [lia|].
    specialize (Hbody sig vc e s).
    destruct (loopBody _ _ _ _ _ _ e s) as [s1 [[]| |err]]; simpl in *;
      try specialize (IH s1); lia. }
  unfold VerifyArtifactTransparencyLog. rewrite He.
  case_bool_decide as Hlen; simpl; [lia|].
  destruct (hasDuplicates entries); simpl; [lia|].
  destruct (GetSignatureContent entity) as [sc|]; simpl; [|lia].
  destruct (GetVerificationContent entity) as [vc|]; simpl; [|lia].
  specialize (Hloop (Signature sc) vc entries initial).
  unfold maxAllowedTlogEntries in Hlen.
  destruct (rangeEntries _ _ _ _ _ _ entries initial) as [s [err|]]; simpl in *;
    [|case_bool_decide; simpl]; lia.
Qed.

Lemma offline_work_bounded_witness :
  (length (VerifyArtifactTransparencyLog Demo.X
             (Demo.entity [Demo.entry 1 true true [x00]; Demo.stranger 2])
             Demo.trusted 1 true false).1 ≤ 8 * 2)%nat.
Proof.
  apply (offline_work_bounded Demo.X
           (Demo.entity [Demo.entry 1 true true [x00]; Demo.stranger 2])
           Demo.trusted 1 true
           [Demo.entry 1 true true [x00]; Demo.stranger 2]).
  reflexivity.
Defined.

(** ** The trust in the integrated time *)

Section Alike.

Context (X : Collaborators).

Lemma alike_bind {A B} (m m' : M X A) (f f' : A → M X B) :
  alike m m' → (∀ a, alike (f a) (f' a)) → alike (m ≫= f) (m' ≫= f').
Proof.
  intros Hm Hf s s' Hs. unfold mbind, M_bind.
  destruct (Hm s s' Hs) as [Ha Hfl].
  destruct (m s) as [s1 fl], (m' s') as [s1' fl']; simpl in *. subst fl'.
  destruct fl as [a| |err]; simpl; [by apply Hf | done | done].
Qed.

Lemma alike_ret {A} (a : A) : alike (mret a : M X A) (mret a).
Proof. by intros s s' Hs. Qed.
Lemma alike_fail {A} err : alike (fail X err : M X A) (fail X err).
Proof. by intros s s' Hs. Qed.
Lemma alike_continue {A} : alike (continue X : M X A) (continue X).
Proof. by intros s s' Hs. Qed.
Lemma alike_step w : alike (step X w) (step X w).
Proof. intros s s' [Hc Hw]. unfold agree; simpl. by rewrite Hw. Qed.
Lemma alike_incrVerified : alike (incrVerified X) (incrVerified X).
Proof. intros s s' [Hc Hw]. unfold agree; simpl. by rewrite Hc. Qed.
Lemma alike_appendTimestamp t t' :
  alike (appendTimestamp X t) (appendTimestamp X t').
Proof. by intros s s' Hs. Qed.
Lemma alike_appendTimestamp_l t : alike (appendTimestamp X t) (mret ()).
Proof. by intros s s' Hs. Qed.
Lemma alike_appendTimestamp_r t : alike (mret ()) (appendTimestamp X t).
Proof. by intros s s' Hs. Qed.

Lemma alike_rangePayload payload verifier :
  alike (rangePayload X payload verifier) (rangePayload X payload verifier).
Proof.
  induction payload as [|v rest IH]; simpl; [apply alike_ret|].
  apply alike_bind; [apply alike_step|]. intros _.
  destruct (VerifyLogEntry X v verifier); [apply alike_fail | apply IH].
Qed.

Ltac solve_alike :=
  repeat first
    [ apply alike_rangePayload | apply alike_ret | apply alike_fail
    | apply alike_continue | apply alike_step | apply alike_incrVerified
    | apply alike_appendTimestamp | apply alike_appendTimestamp_l
    | apply alike_appendTimestamp_r
    | apply alike_bind; [| intros ?]
    | case_match ].

Lemma alike_body trustedMaterial online tit tit' entitySignature
    verificationContent e :
  alike (loopBody X trustedMaterial tit online entitySignature verificationContent e)
        (loopBody X trustedMaterial tit' online entitySignature verificationContent e).
Proof.
  unfold loopBody, verifyOffline, verifyOnline, checkConsistency.
  destruct tit, tit', online; simpl; solve_alike.
Qed.

Lemma alike_loop trustedMaterial online tit tit' entitySignature
    verificationContent entries (s s' : St X) :
  agree s s' →
  agree (rangeEntries X trustedMaterial tit online entitySignature
           verificationContent entries s).1
        (rangeEntries X trustedMaterial tit' online entitySignature
           verificationContent entries s').1
  ∧ (rangeEntries X trustedMaterial tit online entitySignature
       verificationContent entries s).2
    = (rangeEntries X trustedMaterial tit' online entitySignature
         verificationContent entries s').2.
Proof.
  revert s s'. induction entries as [|e rest IH]; intros s s' Hs; simpl; [done|].
  destruct (alike_body trustedMaterial online tit tit' entitySignature
              verificationContent e s s' Hs) as [Ha Hfl].
  destruct (loopBody _ _ tit _ _ _ e s) as [s1 fl],
           (loopBody _ _ tit' _ _ _ e s') as [s1' fl']; simpl in *. subst fl'.
  destruct fl as [[]| |err]; simpl; [by apply IH | by apply IH | done].
Qed.

End Alike.

(** X15: whether the integrated time is trusted decides the timestamps
    and nothing else: with either setting the operation does the same
    work and either succeeds both times or returns the same error. *)
Theorem trust_in_time_keeps_verdict X entity trustedMaterial logThreshold online
    tit tit' :
  (VerifyArtifactTransparencyLog X entity trustedMaterial logThreshold tit online).1
  = (VerifyArtifactTransparencyLog X entity trustedMaterial logThreshold tit' online).1
  ∧ match
      (VerifyArtifactTransparencyLog X entity trustedMaterial logThreshold tit online).2,
      (VerifyArtifactTransparencyLog X entity trustedMaterial logThreshold tit' online).2
    with
    | Err err, Err err' => err = err'
    | Ok _, Ok _ => True
    | _, _ => False
    end.
Proof.
  unfold VerifyArtifactTransparencyLog.
  destruct (TlogEntries entity) as [entries|]; [|done].
  destruct (bool_decide _); [done|].
  destruct (hasDuplicates entries); [done|].
  destruct (GetSignatureContent entity) as [sc|]; [|done].
  destruct (GetVerificationContent entity) as [vc|]; [|done].
  destruct (alike_loop X trustedMaterial online tit tit' (Signature sc) vc entries
              initial initial) as [[Hc Hw] Hr]; [done|].
  destruct (rangeEntries _ _ tit _ _ _ entries initial) as [s o],
           (rangeEntries _ _ tit' _ _ _ entries initial) as [s' o'].
  simpl in *. subst o'. rewrite Hc, Hw. destruct o as [err|]; simpl; [done|].
  by case_bool_decide.
Qed.

(** ** Before the loop *)

(** X16: the exits before the loop, in their order.  An error of
    [TlogEntries] is returned as it is; a list that fails the
    entry-count or duplicate check is refused whether or not the
    signature and verification content can be read; then an error of
    [SignatureContent], then one of [VerificationContent], is returned
    as it is.  None of these exits does any per-entry work. *)
Theorem exits_before_the_loop X entity trustedMaterial logThreshold
    trustIntegratedTime online :
  let r := VerifyArtifactTransparencyLog X entity trustedMaterial logThreshold
             trustIntegratedTime online in
  (∀ err, TlogEntries entity = Err err → r = ([], Err err))
  ∧ (∀ entries, TlogEntries entity = Ok entries → ¬ passesAdmission entries →
       r = ([], Err (ErrTooManyEntries (length entries)))
       ∨ r = ([], Err ErrDuplicateEntries))
  ∧ (∀ entries err, TlogEntries entity = Ok entries → passesAdmission entries →
       GetSignatureContent entity = Err err → r = ([], Err err))
  ∧ (∀ entries sc err, TlogEntries entity = Ok entries → passesAdmission entries →
       GetSignatureContent entity = Ok sc →
       GetVerificationContent entity = Err err → r = ([], Err err)).
Proof.
  intros r. subst r. unfold VerifyArtifactTransparencyLog.
  split; [|split; [|split]].
  - by intros err ->.
  - intros entries -> Hadm. case_bool_decide as Hlen; [by left|].
    destruct (hasDuplicates entries) eqn:Hdup; [by right|].
    destruct Hadm. split; [lia | done].
  - intros entries err -> [Hlen Hdup] ->.
    by rewrite Hdup, bool_decide_eq_false_2 by lia.
  - intros entries sc err -> [Hlen Hdup] -> ->.
    by rewrite Hdup, bool_decide_eq_false_2 by lia.
Qed.

Lemma exits_before_the_loop_witness :
  VerifyArtifactTransparencyLog Demo.X
    (Demo.unsigned [Demo.stranger 1; Demo.stranger 1]) Demo.trusted 0 true false
  = ([], Err ErrDuplicateEntries).
Proof.
  destruct (exits_before_the_loop Demo.X
              (Demo.unsigned [Demo.stranger 1; Demo.stranger 1])
              Demo.trusted 0 true false) as (_ & Hadm & _).
  destruct (Hadm [Demo.stranger 1; Demo.stranger 1] eq_refl) as [H|H].
  - intros [_ Hdup]. vm_compute in Hdup. discriminate Hdup.
  - vm_compute in H. discriminate H.
  - exact H.
Defined.
